(** * A shallow embedding of [gsl::span] (include/span.h)

    The view type [span<ElementType, Extent>] is modelled as the source
    writes it: a [storage_type] that derives from an [extent_type] (empty
    for a fixed extent, holding [size_] for [dynamic_extent]) and adds the
    data pointer.  Every [Expects] of the source is a step of an error
    monad, template parameters are explicit arguments, and a
    [static_assert], a disabled constructor template, or a cast or call
    that does not compile is the outcome [IllFormed]. *)

From Stdlib Require Import ZArith List Bool Lia String.
Import ListNotations.
Open Scope Z_scope.

(** ** Element types and the standard type traits the header uses *)

Inductive fundamental_type : Type :=
| ty_bool | ty_char | ty_signed_char | ty_unsigned_char
| ty_wchar_t | ty_char16_t | ty_char32_t
| ty_short | ty_unsigned_short | ty_int | ty_unsigned_int
| ty_long | ty_unsigned_long | ty_long_long | ty_unsigned_long_long
| ty_float | ty_double | ty_long_double.

(** A type together with its top-level cv-qualification. *)
Inductive cpp_type : Type :=
| Fundamental (is_const is_volatile : bool) (f : fundamental_type)
| Pointer (is_const is_volatile : bool) (pointee : cpp_type)
| ClassType (is_const is_volatile : bool) (name : string).

Definition fundamental_type_eq_dec (a b : fundamental_type) : {a = b} + {a <> b}.
Proof. decide equality. Defined.

Definition cpp_type_eq_dec (a b : cpp_type) : {a = b} + {a <> b}.
Proof.
  decide equality;
    try apply bool_dec; try apply fundamental_type_eq_dec; apply string_dec.
Defined.

(** [std::is_same<A, B>::value] *)
Definition is_same (a b : cpp_type) : bool :=
  if cpp_type_eq_dec a b then true else false.

(** [std::is_const<T>::value] *)
Definition is_const (t : cpp_type) : bool :=
  match t with
  | Fundamental c _ _ | Pointer c _ _ | ClassType c _ _ => c
  end.

(** [std::is_volatile<T>::value] *)
Definition is_volatile (t : cpp_type) : bool :=
  match t with
  | Fundamental _ v _ | Pointer _ v _ | ClassType _ v _ => v
  end.

(** [std::remove_cv_t<T>] *)
Definition remove_cv_t (t : cpp_type) : cpp_type :=
  match t with
  | Fundamental _ _ f => Fundamental false false f
  | Pointer _ _ p => Pointer false false p
  | ClassType _ _ n => ClassType false false n
  end.

(** [std::add_const_t<T>] *)
Definition add_const_t (t : cpp_type) : cpp_type :=
  match t with
  | Fundamental _ v f => Fundamental true v f
  | Pointer _ v p => Pointer true v p
  | ClassType _ v n => ClassType true v n
  end.

(** [std::is_integral<T>::value]: the integer types, [bool] and the
    character types, whatever their cv-qualification. *)
Definition is_integral (t : cpp_type) : bool :=
  match t with
  | Fundamental _ _ (ty_float | ty_double | ty_long_double) => false
  | Fundamental _ _ _ => true
  | _ => false
  end.

(** [std::is_pointer<T>::value] *)
Definition is_pointer (t : cpp_type) : bool :=
  match t with
  | Pointer _ _ _ => true
  | _ => false
  end.

(** The qualifiers of [From] are kept by [To], level by level as far as
    both are pointers: no [const] and no [volatile] is dropped, and where
    the qualifiers of a level differ every level above it (from the first
    on) is const in [To].  [all_const] says so of the levels above. *)
Fixpoint qualification_kept (all_const : bool) (From To : cpp_type) : bool :=
  implb (is_const From) (is_const To) &&
  implb (is_volatile From) (is_volatile To) &&
  (all_const ||
   (Bool.eqb (is_const From) (is_const To) &&
    Bool.eqb (is_volatile From) (is_volatile To))) &&
  match From, To with
  | Pointer _ _ p1, Pointer _ _ p2 =>
      qualification_kept (all_const && is_const To) p1 p2
  | _, _ => true
  end.

(** A cast from [From*] to [To*] casts away constness when no
    qualification conversion leads from the one to the other;
    [reinterpret_cast] (like [static_cast]) is ill-formed then. *)
Definition casts_away_constness (From To : cpp_type) : bool :=
  negb (qualification_kept true From To).

(** The same type but for cv-qualifiers, at every level. *)
Fixpoint similar (a b : cpp_type) : bool :=
  match a, b with
  | Fundamental _ _ f, Fundamental _ _ g =>
      if fundamental_type_eq_dec f g then true else false
  | Pointer _ _ p, Pointer _ _ q => similar p q
  | ClassType _ _ n, ClassType _ _ m => String.eqb n m
  | _, _ => false
  end.

Definition t_char : cpp_type := Fundamental false false ty_char.
Definition t_const_char : cpp_type := Fundamental true false ty_char.

(** What the implementation (compiler and platform) fixes and the
    header only uses: object sizes and alignments, the implicit
    conversions, and the width of [std::ptrdiff_t]. *)
Class Implementation : Type := {
  sizeof : cpp_type -> Z;
  alignof : cpp_type -> Z;
  is_convertible : cpp_type -> cpp_type -> bool;
  ptrdiff_bits : Z;
  sizeof_pos : forall t, 0 < sizeof t;
  ptrdiff_bits_pos : 0 < ptrdiff_bits
}.

(** ** Outcomes *)

(** An operation yields a value, fails an [Expects] (gsl_assert.h either
    terminates or throws there), or is rejected when it is compiled. *)
Inductive result (A : Type) : Type :=
| Ok (a : A)
| ContractViolation
| IllFormed.

Arguments Ok {A} a.
Arguments ContractViolation {A}.
Arguments IllFormed {A}.

Definition bind {A B : Type} (r : result A) (k : A -> result B) : result B :=
  match r with
  | Ok a => k a
  | ContractViolation => ContractViolation
  | IllFormed => IllFormed
  end.

Notation "x <- e ;; k" := (bind e (fun x => k))
  (at level 61, e at next level, right associativity).
Notation "e ;;; k" := (bind e (fun _ => k))
  (at level 61, right associativity).

(** [Expects(cond)] of gsl_assert.h *)
Definition Expects (cond : bool) : result unit :=
  if cond then Ok tt else ContractViolation.

Definition static_assert (cond : bool) : result unit :=
  if cond then Ok tt else IllFormed.

(** [class = std::enable_if_t<cond>] on a constructor template: when the
    condition is false the template is no candidate. *)
Definition enable_if_t (cond : bool) : result unit :=
  if cond then Ok tt else IllFormed.

Module gsl.

(** [using index_type = std::ptrdiff_t;] *)
Definition index_type : Type := Z.

(** [using pointer = element_type*;] a byte address, 0 for [nullptr]. *)
Definition pointer : Type := Z.
Definition reference : Type := Z.
Definition nullptr : pointer := 0.

(** [constexpr const std::ptrdiff_t dynamic_extent = -1;] *)
Definition dynamic_extent : index_type := -1.

Module details.
Section Traits.
Context {impl : Implementation}.

Definition is_allowed_pointer_conversion (From To : cpp_type) : bool :=
  is_pointer From && is_pointer To && is_convertible From To.

Definition is_allowed_integral_conversion (From To : cpp_type) : bool :=
  is_integral From && is_integral To &&
  (sizeof From =? sizeof To) && (alignof From =? alignof To) &&
  is_convertible From To.

(** The primary template and its two partial specialisations for
    [To = char] and [To = const char]. *)
Definition is_allowed_element_type_conversion (From To : cpp_type) : bool :=
  if is_same To t_char then negb (is_const From)
  else if is_same To t_const_char then true
  else is_same From (remove_cv_t To) ||
       is_allowed_pointer_conversion From To ||
       is_allowed_integral_conversion From To.

End Traits.
End details.

Section Span.
Context {impl : Implementation}.

(** *** Arithmetic of [std::ptrdiff_t] and of pointers *)

Definition PTRDIFF_MAX : Z := 2 ^ (ptrdiff_bits - 1) - 1.
Definition PTRDIFF_MIN : Z := - 2 ^ (ptrdiff_bits - 1).

(** The two's complement value an integer takes as an [index_type]. *)
Definition to_index (z : Z) : index_type :=
  (z - PTRDIFF_MIN) mod 2 ^ ptrdiff_bits + PTRDIFF_MIN.

Definition index_add (a b : index_type) : index_type := to_index (a + b).
Definition index_sub (a b : index_type) : index_type := to_index (a - b).

(** [p + n] on an [ElementType*] *)
Definition ptr_add (ElementType : cpp_type) (p : pointer) (n : index_type) : pointer :=
  p + n * sizeof ElementType.

(** [std::distance(first, last)] on two [ElementType*] *)
Definition distance (ElementType : cpp_type) (first last : pointer) : index_type :=
  to_index (Z.quot (last - first) (sizeof ElementType)).

Definition is_null (p : pointer) : bool := p =? nullptr.

(** *** [extent_type] *)

(** The primary template [extent_type<Extent>] has no data member. *)
Inductive fixed_extent_type : Type := fixed_extent_instance.

(** The specialisation [extent_type<dynamic_extent>] stores [size_]. *)
Record dynamic_extent_type : Type := { size_ : index_type }.

Definition extent_type (Extent : index_type) : Type :=
  if Extent =? dynamic_extent then dynamic_extent_type else fixed_extent_type.

(** [extent_type::size()] *)
Definition extent_size (Extent : index_type) : extent_type Extent -> index_type :=
  match Extent =? dynamic_extent as b
        return (if b then dynamic_extent_type else fixed_extent_type) -> index_type
  with
  | true => fun e => size_ e
  | false => fun _ => Extent
  end.

(** [extent_type()]: only the primary template has it, and the class
    asserts [Extent >= 0]. *)
Definition extent_type_default (Extent : index_type) : result (extent_type Extent) :=
  match Extent =? dynamic_extent as b
        return result (if b then dynamic_extent_type else fixed_extent_type)
  with
  | true => IllFormed
  | false => static_assert (Extent >=? 0) ;;; Ok fixed_extent_instance
  end.

(** [extent_type(extent_type<Other>)] *)
Definition extent_type_of_extent (Extent Other : index_type)
    (ext : extent_type Other) : result (extent_type Extent) :=
  match Extent =? dynamic_extent as b
        return result (if b then dynamic_extent_type else fixed_extent_type)
  with
  | true => Ok {| size_ := extent_size Other ext |}
  | false =>
      static_assert (Extent >=? 0) ;;;
      static_assert (Other =? Extent) ;;;
      Ok fixed_extent_instance
  end.

(** [extent_type(index_type size)] *)
Definition extent_type_of_size (Extent : index_type)
    (size : index_type) : result (extent_type Extent) :=
  match Extent =? dynamic_extent as b
        return result (if b then dynamic_extent_type else fixed_extent_type)
  with
  | true => Expects (size >=? 0) ;;; Ok {| size_ := size |}
  | false =>
      static_assert (Extent >=? 0) ;;;
      Expects (size =? Extent) ;;;
      Ok fixed_extent_instance
  end.

(** *** [storage_type<ExtentType>]: the extent as base class, then [data_] *)

Record storage_type (ExtentType : Type) : Type := {
  extent_base : ExtentType;
  data_ : pointer
}.
#[global] Arguments extent_base {ExtentType} _.
#[global] Arguments data_ {ExtentType} _.

(** [storage_type(pointer data, OtherExtentType ext)] with an
    [index_type] for [ext] *)
Definition storage_of_size (Extent : index_type) (data : pointer)
    (ext : index_type) : result (storage_type (extent_type Extent)) :=
  base <- extent_type_of_size Extent ext ;;
  Ok {| extent_base := base; data_ := data |}.

(** ... and with an [extent_type<Other>] for [ext] *)
Definition storage_of_extent (Extent Other : index_type) (data : pointer)
    (ext : extent_type Other) : result (storage_type (extent_type Extent)) :=
  base <- extent_type_of_extent Extent Other ext ;;
  Ok {| extent_base := base; data_ := data |}.

(** *** [span<ElementType, Extent>] *)

Record span (ElementType : cpp_type) (Extent : index_type) : Type := {
  storage_ : storage_type (extent_type Extent)
}.
#[global] Arguments storage_ {ElementType Extent} _.

Section Members.
Context {ElementType : cpp_type} {Extent : index_type}.

Definition data (s : span ElementType Extent) : pointer := data_ (storage_ s).

Definition size (s : span ElementType Extent) : index_type :=
  extent_size Extent (extent_base (storage_ s)).

Definition length (s : span ElementType Extent) : index_type := size s.

Definition size_bytes (s : span ElementType Extent) : index_type :=
  to_index (size s * sizeof ElementType).

Definition length_bytes (s : span ElementType Extent) : index_type := size_bytes s.

Definition empty (s : span ElementType Extent) : bool := size s =? 0.

(** [operator[](index_type idx)] *)
Definition operator_subscript (s : span ElementType Extent)
    (idx : index_type) : result reference :=
  Expects ((idx >=? 0) && (idx <? extent_size Extent (extent_base (storage_ s)))) ;;;
  Ok (ptr_add ElementType (data_ (storage_ s)) idx).

(** [operator()(index_type idx)] *)
Definition operator_call (s : span ElementType Extent)
    (idx : index_type) : result reference :=
  operator_subscript s idx.

End Members.

(** *** Constructors *)

Section Constructors.
Variable ElementType : cpp_type.
Variable Extent : index_type.

(** [span() noexcept : storage_(nullptr, extent_type<0>())] *)
Definition span_default : result (span ElementType Extent) :=
  ext <- extent_type_default 0 ;;
  st <- storage_of_extent Extent 0 nullptr ext ;;
  Ok {| storage_ := st |}.

(** [span(nullptr_t) noexcept : span()] *)
Definition span_nullptr : result (span ElementType Extent) := span_default.

(** [span(pointer ptr, index_type count) : storage_(ptr, count)] *)
Definition span_ptr_count (ptr : pointer) (count : index_type)
    : result (span ElementType Extent) :=
  st <- storage_of_size Extent ptr count ;;
  Expects ((is_null ptr && (count =? 0)) || (negb (is_null ptr) && (count >=? 0))) ;;;
  Ok {| storage_ := st |}.

(** [span(pointer firstElem, pointer lastElem)] *)
Definition span_first_last (firstElem lastElem : pointer)
    : result (span ElementType Extent) :=
  st <- storage_of_size Extent firstElem (distance ElementType firstElem lastElem) ;;
  Ok {| storage_ := st |}.

(** [template <size_t N> span(element_type(&arr)[N])], the array given
    by the address of [arr[0]]; the two [std::array] constructors have the
    same initialiser. *)
Definition span_array (N : Z) (arr : pointer) : result (span ElementType Extent) :=
  ext <- extent_type_default N ;;
  st <- storage_of_extent Extent N arr ext ;;
  Ok {| storage_ := st |}.

Definition span_std_array (N : Z) (arr : pointer) : result (span ElementType Extent) :=
  span_array N arr.

Definition span_const_std_array (N : Z) (arr : pointer)
    : result (span ElementType Extent) :=
  enable_if_t (is_const ElementType) ;;;
  span_array N arr.

End Constructors.

(** A contiguous container as the constructor templates see it: its
    [pointer] member type, the type of [data()] on the container and on
    the container as const, and what [data()] and [size()] return (a
    [size_t]). *)
Record Container : Type := {
  Container_pointer : cpp_type;
  Container_data_type : cpp_type;
  Container_const_data_type : cpp_type;
  Container_data : pointer;
  Container_size : Z
}.

(** An argument of type [From] for a parameter of type [To]: the call
    compiles when the implicit conversion exists. *)
Definition argument_converts (From To : cpp_type) : result unit :=
  if is_convertible From To then Ok tt else IllFormed.

Section ContainerConstructors.
Variable ElementType : cpp_type.
Variable Extent : index_type.

(** [span(Container& cont) : span(cont.data(), cont.size())]; a
    container is no span, so [!details::is_span<Container>::value] holds.
    The delegated call has to find the pointer and count constructor, which
    takes what [cont.data()] returns only if that converts to [pointer]. *)
Definition span_container (cont : Container) : result (span ElementType Extent) :=
  enable_if_t (is_convertible (Container_pointer cont) (Pointer false false ElementType) &&
               is_convertible (Container_pointer cont) (Container_data_type cont)) ;;;
  argument_converts (Container_data_type cont) (Pointer false false ElementType) ;;;
  span_ptr_count ElementType Extent (Container_data cont) (to_index (Container_size cont)).

(** [span(const Container& cont) : span(cont.data(), cont.size())],
    where [cont.data()] is called on the const container. *)
Definition span_const_container (cont : Container) : result (span ElementType Extent) :=
  enable_if_t (is_const ElementType &&
               is_convertible (Container_pointer cont) (Pointer false false ElementType) &&
               is_convertible (Container_pointer cont) (Container_data_type cont)) ;;;
  argument_converts (Container_const_data_type cont) (Pointer false false ElementType) ;;;
  span_ptr_count ElementType Extent (Container_data cont) (to_index (Container_size cont)).

End ContainerConstructors.

(** [reinterpret_cast<To*>(p)] for [p] of type [From*]: the same
    address; ill-formed when it casts away constness. *)
Definition reinterpret_cast (From To : cpp_type) (p : pointer) : result pointer :=
  if casts_away_constness From To then IllFormed else Ok p.

(** [span(const span<OtherElementType, OtherExtent>& other)], and the
    overload taking [span<OtherElementType, OtherExtent>&&], which has the
    same condition and the same initialiser.  No other constructor takes a
    span of another type: the container templates exclude spans through
    [details::is_span], and the copy and move constructors take
    [span<ElementType, Extent>] itself. *)
Definition span_converting (ElementType : cpp_type) (Extent : index_type)
    {OtherElementType : cpp_type} {OtherExtent : index_type}
    (other : span OtherElementType OtherExtent) : result (span ElementType Extent) :=
  enable_if_t (negb (is_same ElementType OtherElementType) &&
               details.is_allowed_element_type_conversion OtherElementType ElementType) ;;;
  p <- reinterpret_cast OtherElementType ElementType (data other) ;;
  st <- storage_of_size Extent p (length other) ;;
  Ok {| storage_ := st |}.

(** [span(const span& other) noexcept = default] *)
Definition span_copy {ElementType : cpp_type} {Extent : index_type}
    (other : span ElementType Extent) : span ElementType Extent := other.

(** *** Sub-views *)

(** The return type [span<element_type, Count>] of the compile-time forms
    is instantiated before anything runs; [extent_type<Count>] asserts
    [Count >= 0] unless [Count] selects the dynamic specialisation. *)
Definition span_instantiated (Extent : index_type) : result unit :=
  static_assert ((Extent =? dynamic_extent) || (Extent >=? 0)).

Section Subviews.
Context {ElementType : cpp_type} {Extent : index_type}.
Variable s : span ElementType Extent.

(** [template <ptrdiff_t Count> first() const] *)
Definition first_static (Count : index_type) : result (span ElementType Count) :=
  span_instantiated Count ;;;
  Expects ((Count >=? 0) && (Count <=? size s)) ;;;
  span_ptr_count ElementType Count (data s) Count.

(** [template <ptrdiff_t Count> last() const] *)
Definition last_static (Count : index_type) : result (span ElementType Count) :=
  span_instantiated Count ;;;
  Expects ((Count >=? 0) && (Count <=? size s)) ;;;
  span_ptr_count ElementType Count
    (if Count =? 0 then data s
     else ptr_add ElementType (data s) (index_sub (size s) Count))
    Count.

(** [template <ptrdiff_t Offset, ptrdiff_t Count = dynamic_extent> subspan() const] *)
Definition subspan_static (Offset Count : index_type) : result (span ElementType Count) :=
  span_instantiated Count ;;;
  Expects (((Offset =? 0) || ((Offset >? 0) && (Offset <=? size s))) &&
           ((Count =? dynamic_extent) ||
            ((Count >=? 0) && (index_add Offset Count <=? size s)))) ;;;
  span_ptr_count ElementType Count
    (ptr_add ElementType (data s) Offset)
    (if Count =? dynamic_extent then index_sub (size s) Offset else Count).

(** [first(index_type count) const] *)
Definition first (count : index_type) : result (span ElementType dynamic_extent) :=
  Expects ((count >=? 0) && (count <=? size s)) ;;;
  span_ptr_count ElementType dynamic_extent (data s) count.

(** [last(index_type count) const] *)
Definition last (count : index_type) : result (span ElementType dynamic_extent) :=
  Expects ((count >=? 0) && (count <=? size s)) ;;;
  span_ptr_count ElementType dynamic_extent
    (if count =? 0 then data s
     else ptr_add ElementType (data s) (index_sub (size s) count))
    count.

(** [subspan(index_type offset, index_type count = dynamic_extent) const] *)
Definition subspan (offset count : index_type) : result (span ElementType dynamic_extent) :=
  Expects (((offset =? 0) || ((offset >? 0) && (offset <=? size s))) &&
           ((count =? dynamic_extent) ||
            ((count >=? 0) && (index_add offset count <=? size s)))) ;;;
  span_ptr_count ElementType dynamic_extent
    (ptr_add ElementType (data s) offset)
    (if count =? dynamic_extent then index_sub (size s) offset else count).

End Subviews.

End Span.
End gsl.

Import gsl.

(** ** The memory a view refers to *)

(** The objects of the element type, by address. *)
Definition memory (V : Type) : Type := pointer -> V.

(** Reading through the reference an access returned. *)
Definition read {V : Type} (m : memory V) (r : result reference) : result V :=
  p <- r ;; Ok (m p).

Section Content.
Context {impl : Implementation}.

(** [buf] is the array object at address [p]. *)
Definition holds_array {V : Type} (m : memory V) (ElementType : cpp_type)
    (p : pointer) (buf : list V) : Prop :=
  forall (i : nat) (v : V),
    nth_error buf i = Some v -> m (ptr_add ElementType p (Z.of_nat i)) = v.

(** The content of a view: what [s[0]], ..., [s[size() - 1]] read. *)
Definition elements {V : Type} {ElementType : cpp_type} {Extent : index_type}
    (m : memory V) (s : span ElementType Extent) : list (result V) :=
  List.map (fun i => read m (operator_subscript s (Z.of_nat i)))
           (List.seq 0 (Z.to_nat (size s))).

(** The invariants of the data model: a size that is a non-negative
    [index_type], a pointer that is an address, and a null pointer only
    with size zero. *)
Definition span_invariant {ElementType : cpp_type} {Extent : index_type}
    (s : span ElementType Extent) : Prop :=
  0 <= size s <= PTRDIFF_MAX /\ 0 <= data s /\ (data s = nullptr -> size s = 0).

(** The element range of [r] lies inside that of [s]. *)
Definition within {ElementType : cpp_type} {Extent Extent' : index_type}
    (r : span ElementType Extent') (s : span ElementType Extent) : Prop :=
  data s <= data r /\
  ptr_add ElementType (data r) (size r) <= ptr_add ElementType (data s) (size s).

(** The views some constructor of the class has built. *)
Inductive constructed : forall (T : cpp_type) (E : index_type), span T E -> Prop :=
| by_default T E s :
    span_default T E = Ok s -> constructed T E s
| by_nullptr T E s :
    span_nullptr T E = Ok s -> constructed T E s
| by_ptr_count T E ptr count s :
    span_ptr_count T E ptr count = Ok s -> constructed T E s
| by_first_last T E firstElem lastElem s :
    span_first_last T E firstElem lastElem = Ok s -> constructed T E s
| by_array T E N arr s :
    span_array T E N arr = Ok s -> constructed T E s
| by_std_array T E N arr s :
    span_std_array T E N arr = Ok s -> constructed T E s
| by_const_std_array T E N arr s :
    span_const_std_array T E N arr = Ok s -> constructed T E s
| by_container T E cont s :
    span_container T E cont = Ok s -> constructed T E s
| by_const_container T E cont s :
    span_const_container T E cont = Ok s -> constructed T E s
| by_converting T E T' E' (other : span T' E') s :
    span_converting T E other = Ok s -> constructed T E s
| by_copy T E other :
    constructed T E other -> constructed T E (span_copy other).

(** The precondition of the pointer and count constructor, as the
    specification words it. *)
Definition ptr_count_precondition (ptr : pointer) (count : index_type) : Prop :=
  (ptr = nullptr /\ count = 0) \/ (ptr <> nullptr /\ count >= 0).

(** The precondition of [subspan], over the integers. *)
Definition subspan_precondition {ElementType : cpp_type} {Extent : index_type}
    (s : span ElementType Extent) (offset count : index_type) : Prop :=
  0 <= offset <= size s /\
  (count = dynamic_extent \/ (0 <= count /\ offset + count <= size s)).

End Content.

(** ** An implementation to run the model on: 64-bit Windows (LLP64) *)

Definition llp64_sizeof (t : cpp_type) : Z :=
  match t with
  | Fundamental _ _ f =>
      match f with
      | ty_bool | ty_char | ty_signed_char | ty_unsigned_char => 1
      | ty_wchar_t | ty_char16_t | ty_short | ty_unsigned_short => 2
      | ty_char32_t | ty_int | ty_unsigned_int | ty_long | ty_unsigned_long
      | ty_float => 4
      | ty_long_long | ty_unsigned_long_long | ty_double | ty_long_double => 8
      end
  | Pointer _ _ _ => 8
  | ClassType _ _ _ => 1
  end.

(** Implicit conversions between arithmetic types, from a pointer to
    [bool], from a class to itself, and between object pointers to similar
    types by a qualification conversion. *)
Definition llp64_is_convertible (From To : cpp_type) : bool :=
  match From, To with
  | Fundamental _ _ _, Fundamental _ _ _ => true
  | Pointer _ _ _, Fundamental _ _ ty_bool => true
  | Pointer _ _ p, Pointer _ _ q => similar p q && qualification_kept true p q
  | ClassType _ _ n, ClassType _ _ n' => String.eqb n n'
  | _, _ => false
  end.

#[export] Instance llp64 : Implementation := {|
  sizeof := llp64_sizeof;
  alignof := llp64_sizeof;
  is_convertible := llp64_is_convertible;
  ptrdiff_bits := 64;
  sizeof_pos :=
    ltac:(intros [c v f|c v p|c v n]; try destruct f; reflexivity);
  ptrdiff_bits_pos := eq_refl
|}.

Definition t_int : cpp_type := Fundamental false false ty_int.
Definition t_const_int : cpp_type := Fundamental true false ty_int.
Definition t_unsigned_int : cpp_type := Fundamental false false ty_unsigned_int.

(** The buffer [[10,20,30,40,50]] of five [int] at address 4096. *)
Definition example_memory : memory Z :=
  fun p => List.nth (Z.to_nat ((p - 4096) / 4)) [10; 20; 30; 40; 50] 0.

Definition example_view : result (span t_int dynamic_extent) :=
  span_ptr_count t_int dynamic_extent 4096 5.

(** The value of that view, and the same range with a fixed extent. *)
Definition example_span : span t_int dynamic_extent :=
  {| storage_ := {| extent_base := {| size_ := 5 |} : extent_type dynamic_extent;
                    data_ := 4096 |} |}.

Definition example_span_5 : span t_int 5 :=
  {| storage_ := {| extent_base := fixed_extent_instance : extent_type 5;
                    data_ := 4096 |} |}.

(** The same five elements seen as [volatile int]. *)
Definition t_volatile_int : cpp_type := Fundamental false true ty_int.

Definition example_volatile_span : span t_volatile_int dynamic_extent :=
  {| storage_ := {| extent_base := {| size_ := 5 |} : extent_type dynamic_extent;
                    data_ := 4096 |} |}.

(** The empty view [span()] holds. *)
Definition empty_span : span t_int dynamic_extent :=
  {| storage_ := {| extent_base := {| size_ := 0 |} : extent_type dynamic_extent;
                    data_ := nullptr |} |}.

(** ** The concrete scenarios of the specification, run on the model *)

Example example_view_value : example_view = Ok example_span.
Proof. reflexivity. Qed.

Example example_memory_holds :
  holds_array example_memory t_int 4096 [10; 20; 30; 40; 50].
Proof.
  intros i v H. do 5 (destruct i as [|i]; [injection H as <-; reflexivity|]).
  destruct i; discriminate H.
Qed.

Example example_view_size :
  (v <- example_view ;; Ok (size v, data v)) = Ok (5, 4096).
Proof. reflexivity. Qed.

Example example_first_2 :
  (v <- example_view ;; r <- first v 2 ;; Ok (elements example_memory r))
  = Ok [Ok 10; Ok 20].
Proof. reflexivity. Qed.

Example example_last_2 :
  (v <- example_view ;; r <- last v 2 ;; Ok (elements example_memory r))
  = Ok [Ok 40; Ok 50].
Proof. reflexivity. Qed.

Example example_subspan_1_3 :
  (v <- example_view ;; r <- subspan v 1 3 ;; Ok (elements example_memory r))
  = Ok [Ok 20; Ok 30; Ok 40].
Proof. reflexivity. Qed.

Example example_first_static_2 :
  (r <- first_static example_span 2 ;; Ok (data r, size r)) = Ok (4096, 2).
Proof. reflexivity. Qed.

Example example_last_static_2 :
  (r <- last_static example_span_5 2 ;; Ok (data r, size r)) = Ok (4108, 2).
Proof. reflexivity. Qed.

Example example_subspan_static :
  (r <- subspan_static example_span 1 dynamic_extent ;; Ok (data r, size r))
  = Ok (4100, 4).
Proof. reflexivity. Qed.

Example example_default : span_default t_int dynamic_extent = Ok empty_span.
Proof. reflexivity. Qed.

Example example_null_count_3 :
  span_ptr_count t_int dynamic_extent nullptr 3 = ContractViolation.
Proof. reflexivity. Qed.

Example example_null_count_0 :
  span_ptr_count t_int dynamic_extent nullptr 0 = Ok empty_span.
Proof. reflexivity. Qed.

Example example_array : span_array t_int 5 5 4096 = Ok example_span_5.
Proof. reflexivity. Qed.

Example example_array_dynamic :
  span_array t_int dynamic_extent 5 4096 = Ok example_span.
Proof. reflexivity. Qed.

Example example_array_other_extent : span_array t_int 3 5 4096 = IllFormed.
Proof. reflexivity. Qed.

Example example_to_const :
  (r <- span_converting t_const_int dynamic_extent example_span_5 ;;
   Ok (data r, size r)) = Ok (4096, 5).
Proof. reflexivity. Qed.

Example example_to_fixed_3 :
  span_converting t_const_int 3 example_span = ContractViolation.
Proof. reflexivity. Qed.

Example example_index_5 :
  (v <- example_view ;; operator_subscript v 5) = ContractViolation.
Proof. reflexivity. Qed.

Example example_subspan_0_6 :
  (v <- example_view ;; r <- subspan v 0 6 ;; Ok (size r)) = ContractViolation.
Proof. reflexivity. Qed.

(** ** The error monad *)

Lemma bind_Ok_inv {A B : Type} (r : result A) (k : A -> result B) (b : B) :
  bind r k = Ok b -> exists a, r = Ok a /\ k a = Ok b.
Proof. destruct r as [a| |]; simpl; intros H; try discriminate; eauto. Qed.

Lemma Expects_Ok_inv (c : bool) (u : unit) : Expects c = Ok u -> c = true.
Proof. destruct c; simpl; congruence. Qed.

Lemma Expects_true (c : bool) : c = true -> Expects c = Ok tt.
Proof. intros ->; reflexivity. Qed.

Lemma Expects_false (c : bool) : c = false -> Expects c = ContractViolation.
Proof. intros ->; reflexivity. Qed.

Lemma static_assert_Ok_inv (c : bool) (u : unit) : static_assert c = Ok u -> c = true.
Proof. destruct c; simpl; congruence. Qed.

(** ** [std::ptrdiff_t] *)

Section IndexArithmetic.
Context {impl : Implementation}.

Lemma ptrdiff_modulus : 2 ^ ptrdiff_bits = 2 * 2 ^ (ptrdiff_bits - 1).
Proof.
  pose proof ptrdiff_bits_pos as Hb.
  replace ptrdiff_bits with (Z.succ (ptrdiff_bits - 1)) at 1 by lia.
  apply Z.pow_succ_r; lia.
Qed.

Lemma PTRDIFF_MAX_nonneg : 0 <= PTRDIFF_MAX.
Proof.
  unfold PTRDIFF_MAX. pose proof ptrdiff_bits_pos as Hb.
  assert (0 < 2 ^ (ptrdiff_bits - 1)) by (apply Z.pow_pos_nonneg; lia). lia.
Qed.

Lemma PTRDIFF_MIN_MAX : PTRDIFF_MIN = - PTRDIFF_MAX - 1.
Proof. unfold PTRDIFF_MIN, PTRDIFF_MAX; lia. Qed.

(** A value of the range is unchanged. *)
Lemma to_index_id (z : Z) : PTRDIFF_MIN <= z <= PTRDIFF_MAX -> to_index z = z.
Proof.
  intros Hz. unfold to_index. rewrite Z.mod_small; [lia|].
  rewrite ptrdiff_modulus. unfold PTRDIFF_MIN, PTRDIFF_MAX in *. lia.
Qed.

Lemma index_add_id (a b : Z) :
  PTRDIFF_MIN <= a + b <= PTRDIFF_MAX -> index_add a b = a + b.
Proof. apply to_index_id. Qed.

Lemma index_sub_id (a b : Z) :
  PTRDIFF_MIN <= a - b <= PTRDIFF_MAX -> index_sub a b = a - b.
Proof. apply to_index_id. Qed.

(** One past the maximum wraps to the minimum. *)
Lemma to_index_wraps : to_index (PTRDIFF_MAX + 1) = PTRDIFF_MIN.
Proof.
  unfold to_index. rewrite PTRDIFF_MIN_MAX.
  replace (PTRDIFF_MAX + 1 - (- PTRDIFF_MAX - 1)) with (1 * 2 ^ ptrdiff_bits).
  - rewrite Z.mod_mul; [lia|]. rewrite ptrdiff_modulus.
    pose proof PTRDIFF_MAX_nonneg. unfold PTRDIFF_MAX in *. lia.
  - rewrite ptrdiff_modulus. unfold PTRDIFF_MAX. lia.
Qed.

Lemma distance_ptr_add (T : cpp_type) (p : pointer) (k : index_type) :
  PTRDIFF_MIN <= k <= PTRDIFF_MAX -> distance T p (ptr_add T p k) = k.
Proof.
  intros Hk. unfold distance, ptr_add.
  replace (p + k * sizeof T - p) with (k * sizeof T) by lia.
  rewrite Z.quot_mul by (pose proof (sizeof_pos T); lia).
  now apply to_index_id.
Qed.

End IndexArithmetic.

(** ** [extent_type] *)

Section ExtentLemmas.
Context {impl : Implementation}.

Lemma extent_size_fixed (E : index_type) (e : extent_type E) :
  E <> dynamic_extent -> extent_size E e = E.
Proof.
  intros HE. revert e. unfold extent_size, extent_type.
  destruct (Z.eqb_spec E dynamic_extent); [contradiction | reflexivity].
Qed.

Lemma extent_type_of_size_Ok (E n : index_type) (e : extent_type E) :
  extent_type_of_size E n = Ok e ->
  extent_size E e = n /\ 0 <= n /\ (E = dynamic_extent \/ E = n).
Proof.
  revert e. unfold extent_type_of_size, extent_size, extent_type.
  destruct (Z.eqb_spec E dynamic_extent) as [HE|HE]; intros e H.
  - apply bind_Ok_inv in H as (u & Hc & H'). apply Expects_Ok_inv in Hc.
    injection H' as <-. simpl. lia.
  - apply bind_Ok_inv in H as (u & Hs & H'). apply static_assert_Ok_inv in Hs.
    apply bind_Ok_inv in H' as (u' & Hc & _). apply Expects_Ok_inv in Hc. lia.
Qed.

Lemma extent_type_of_size_succeeds (E n : index_type) :
  0 <= n -> E = dynamic_extent \/ E = n ->
  exists e, extent_type_of_size E n = Ok e.
Proof.
  intros Hn HE. unfold extent_type_of_size, extent_type.
  destruct (Z.eqb_spec E dynamic_extent) as [HE'|HE'].
  - rewrite Expects_true by lia. simpl. eauto.
  - assert (E = n) as -> by (destruct HE; [contradiction | assumption]).
    replace (n >=? 0) with true by lia. simpl.
    rewrite Z.eqb_refl. simpl. eauto.
Qed.

(** With a dynamic extent the count has to be non-negative; with a fixed
    extent it has to be the extent. *)
Lemma extent_type_of_size_violation (E n : index_type) :
  extent_type_of_size E n = ContractViolation <->
  (E = dynamic_extent /\ n < 0) \/ (0 <= E /\ n <> E).
Proof.
  unfold extent_type_of_size, extent_type.
  destruct (Z.eqb_spec E dynamic_extent) as [HE|HE].
  - destruct (Z.geb_spec n 0) as [Hn|Hn]; simpl; split; intros H;
      try discriminate; try reflexivity; unfold dynamic_extent in *; lia.
  - destruct (Z.geb_spec E 0) as [H0|H0]; simpl.
    + destruct (Z.eqb_spec n E) as [Hn|Hn]; simpl; split; intros H;
        try discriminate; try reflexivity; lia.
    + split; intros H; try discriminate; lia.
Qed.

Lemma extent_type_of_size_ill_formed (E n : index_type) :
  extent_type_of_size E n = IllFormed <-> E < dynamic_extent.
Proof.
  unfold extent_type_of_size, extent_type.
  destruct (Z.eqb_spec E dynamic_extent) as [HE|HE].
  - destruct (Z.geb_spec n 0) as [Hn|Hn]; simpl; split; intros H;
      try discriminate; lia.
  - destruct (Z.geb_spec E 0) as [H0|H0]; simpl.
    + destruct (Z.eqb_spec n E) as [Hn|Hn]; simpl; split; intros H;
        try discriminate; unfold dynamic_extent in *; lia.
    + split; intros H; try reflexivity. unfold dynamic_extent in *; lia.
Qed.

Lemma extent_type_default_Ok (N : index_type) (e : extent_type N) :
  extent_type_default N = Ok e -> 0 <= N /\ extent_size N e = N.
Proof.
  revert e. unfold extent_type_default, extent_size, extent_type.
  destruct (Z.eqb_spec N dynamic_extent) as [HE|HE]; intros e H; [discriminate|].
  apply bind_Ok_inv in H as (u & Hs & _). apply static_assert_Ok_inv in Hs. lia.
Qed.

Lemma extent_type_default_succeeds (N : index_type) :
  0 <= N -> exists e, extent_type_default N = Ok e.
Proof.
  intros HN. unfold extent_type_default, extent_type.
  destruct (Z.eqb_spec N dynamic_extent) as [HE|HE].
  - unfold dynamic_extent in HE; lia.
  - replace (N >=? 0) with true by lia. simpl. eauto.
Qed.

Lemma extent_type_of_extent_Ok (E Other : index_type)
    (ext : extent_type Other) (e : extent_type E) :
  extent_type_of_extent E Other ext = Ok e ->
  (E = dynamic_extent /\ extent_size E e = extent_size Other ext) \/
  (E <> dynamic_extent /\ 0 <= E /\ Other = E /\ extent_size E e = E).
Proof.
  revert e. unfold extent_type_of_extent.
  generalize (extent_size Other ext) as n. intros n.
  unfold extent_size, extent_type.
  destruct (Z.eqb_spec E dynamic_extent) as [HE|HE]; intros e H.
  - injection H as <-. simpl. auto.
  - apply bind_Ok_inv in H as (u & Hs & H'). apply static_assert_Ok_inv in Hs.
    apply bind_Ok_inv in H' as (u' & Hs' & _). apply static_assert_Ok_inv in Hs'.
    right. repeat split; try assumption; lia.
Qed.

Lemma extent_type_of_extent_succeeds (E Other : index_type) (ext : extent_type Other) :
  E = dynamic_extent \/ (0 <= E /\ Other = E) ->
  exists e, extent_type_of_extent E Other ext = Ok e.
Proof.
  intros HE. unfold extent_type_of_extent.
  generalize (extent_size Other ext) as n. intros n. unfold extent_type.
  destruct (Z.eqb_spec E dynamic_extent) as [HE'|HE'].
  - eauto.
  - destruct HE as [HE|[HE HO]]; [contradiction|].
    replace (E >=? 0) with true by lia. replace (Other =? E) with true by lia.
    simpl. eauto.
Qed.

End ExtentLemmas.

(** ** The pointer and count constructor *)

Section PtrCount.
Context {impl : Implementation}.
Variable T : cpp_type.
Variable E : index_type.

Lemma ptr_check_true (p : pointer) (c : index_type) :
  0 <= c -> (p = nullptr -> c = 0) ->
  (is_null p && (c =? 0)) || (negb (is_null p) && (c >=? 0)) = true.
Proof.
  intros Hc Hp. unfold is_null.
  destruct (Z.eqb_spec p nullptr) as [Hn|Hn]; simpl.
  - rewrite (Hp Hn). reflexivity.
  - destruct (Z.geb_spec c 0); [reflexivity | lia].
Qed.

Lemma ptr_check_false (p : pointer) (c : index_type) :
  c < 0 \/ (p = nullptr /\ c <> 0) ->
  (is_null p && (c =? 0)) || (negb (is_null p) && (c >=? 0)) = false.
Proof.
  intros H. unfold is_null.
  destruct (Z.eqb_spec p nullptr) as [Hn|Hn]; simpl.
  - destruct (Z.eqb_spec c 0); [lia | reflexivity].
  - destruct (Z.geb_spec c 0); [lia | reflexivity].
Qed.

Lemma span_ptr_count_Ok (p : pointer) (c : index_type) (s : span T E) :
  span_ptr_count T E p c = Ok s ->
  data s = p /\ size s = c /\ 0 <= c /\ (p = nullptr -> c = 0) /\
  (E = dynamic_extent \/ E = c).
Proof.
  unfold span_ptr_count, storage_of_size. intros H.
  apply bind_Ok_inv in H as (st & Hst & H).
  apply bind_Ok_inv in Hst as (e & He & Hst). injection Hst as <-.
  apply bind_Ok_inv in H as (u & Hc & H). injection H as <-.
  apply Expects_Ok_inv in Hc.
  apply extent_type_of_size_Ok in He as (Hsz & Hc0 & HE).
  unfold data, size. simpl. repeat split; try assumption.
  intros Hp. destruct (Z.eq_dec c 0) as [|Hne]; [assumption|].
  rewrite ptr_check_false in Hc by (right; split; assumption). discriminate.
Qed.

Lemma span_ptr_count_succeeds (p : pointer) (c : index_type) :
  0 <= c -> (p = nullptr -> c = 0) -> E = dynamic_extent \/ E = c ->
  exists s, span_ptr_count T E p c = Ok s /\ data s = p /\ size s = c.
Proof.
  intros Hc Hp HE.
  destruct (extent_type_of_size_succeeds E c Hc HE) as (e & He).
  assert (span_ptr_count T E p c
          = Ok {| storage_ := {| extent_base := e; data_ := p |} |}) as Hs.
  { unfold span_ptr_count, storage_of_size. rewrite He. simpl.
    rewrite ptr_check_true by assumption. reflexivity. }
  eexists; split; [exact Hs|].
  apply span_ptr_count_Ok in Hs. tauto.
Qed.

Lemma span_ptr_count_ill_formed (p : pointer) (c : index_type) :
  span_ptr_count T E p c = IllFormed <-> E < dynamic_extent.
Proof.
  rewrite <- (extent_type_of_size_ill_formed E c).
  unfold span_ptr_count, storage_of_size.
  destruct (extent_type_of_size E c) as [e| |]; simpl.
  - unfold Expects. destruct (_ || _); simpl; split; intros H; discriminate.
  - split; intros H; discriminate.
  - tauto.
Qed.

Lemma span_ptr_count_violation (p : pointer) (c : index_type) :
  span_ptr_count T E p c = ContractViolation <->
  dynamic_extent <= E /\
  (c < 0 \/ (p = nullptr /\ c <> 0) \/ (E <> dynamic_extent /\ E <> c)).
Proof.
  split.
  - intros H.
    assert (dynamic_extent <= E) as HE.
    { destruct (Z_lt_le_dec E dynamic_extent) as [Hlt|]; [|assumption].
      apply (span_ptr_count_ill_formed p c) in Hlt. congruence. }
    split; [assumption|].
    destruct (Z_lt_le_dec c 0) as [|Hc]; [auto|].
    destruct (Z.eq_dec p nullptr) as [Hp|Hp];
      destruct (Z.eq_dec c 0) as [Hc0|Hc0];
      destruct (Z.eq_dec E dynamic_extent) as [Hd|Hd];
      destruct (Z.eq_dec E c) as [Hec|Hec]; auto;
      (destruct (span_ptr_count_succeeds p c) as (s & Hs & _);
       [assumption | intros; congruence | auto | congruence]).
  - intros (HE & H).
    destruct (span_ptr_count T E p c) as [s| |] eqn:Hs; [|reflexivity|].
    + apply span_ptr_count_Ok in Hs. lia.
    + apply span_ptr_count_ill_formed in Hs. lia.
Qed.

End PtrCount.

(** ** Element access *)

Section ElementAccess.
Context {impl : Implementation}.
Context {T : cpp_type} {E : index_type}.
Variable s : span T E.

Lemma operator_subscript_in_range (i : index_type) :
  0 <= i < size s -> operator_subscript s i = Ok (ptr_add T (data s) i).
Proof.
  intros Hi. unfold operator_subscript. fold (size s). fold (data s).
  rewrite Expects_true; [reflexivity|].
  apply andb_true_intro; split; lia.
Qed.

Lemma operator_subscript_out_of_range (i : index_type) :
  i < 0 \/ size s <= i -> operator_subscript s i = ContractViolation.
Proof.
  intros Hi. unfold operator_subscript. fold (size s).
  rewrite Expects_false; [reflexivity|].
  apply andb_false_iff. lia.
Qed.

End ElementAccess.

(** C1: an index in [0, size()) makes [operator[]] and [operator()]
    return the reference to the element at that index of the buffer the
    view starts at, so that reading through it yields the element of the
    array stored there; any other index signals ContractViolation and
    yields no reference to read through. *)
Theorem C1_subscript_bounds_checked {impl : Implementation}
    (T : cpp_type) (E : index_type) (s : span T E) (i : index_type) :
  (0 <= i < size s ->
     operator_subscript s i = Ok (ptr_add T (data s) i) /\
     operator_call s i = Ok (ptr_add T (data s) i) /\
     forall (V : Type) (m : memory V) (buf : list V) (v : V),
       holds_array m T (data s) buf ->
       nth_error buf (Z.to_nat i) = Some v ->
       read m (operator_subscript s i) = Ok v /\
       read m (operator_call s i) = Ok v) /\
  (i < 0 \/ size s <= i ->
     operator_subscript s i = ContractViolation /\
     operator_call s i = ContractViolation /\
     forall (V : Type) (m : memory V),
       read m (operator_subscript s i) = ContractViolation /\
       read m (operator_call s i) = ContractViolation).
Proof.
  split; intros Hi.
  - pose proof (operator_subscript_in_range s i Hi) as Hs.
    unfold operator_call. rewrite Hs. repeat split; try reflexivity.
    all: simpl; f_equal; specialize (H (Z.to_nat i) v H0);
      rewrite Z2Nat.id in H by lia; exact H.
  - pose proof (operator_subscript_out_of_range s i Hi) as Hs.
    unfold operator_call. rewrite Hs. repeat split; reflexivity.
Qed.

Lemma C1_subscript_witness :
  operator_subscript example_span 2 = Ok 4104 /\
  operator_subscript example_span 5 = ContractViolation.
Proof.
  destruct (C1_subscript_bounds_checked t_int dynamic_extent example_span 2) as [Hin _].
  destruct (C1_subscript_bounds_checked t_int dynamic_extent example_span 5) as [_ Hout].
  split.
  - apply Hin. change (0 <= 2 < 5). lia.
  - apply Hout. change (5 < 0 \/ 5 <= 5). lia.
Defined.

(** C2: the constructor of a view from a pointer and a count succeeds
    exactly when the pointer is null and the count is 0, or the pointer is
    not null and the count is not negative, and signals ContractViolation
    exactly otherwise; the view it yields has that count as [size()] and
    that pointer as [data()].  A null pointer with count 3 is a violation,
    a null pointer with count 0 yields the empty view.  Whatever the
    extent, a view results only under that precondition, with that size
    and pointer; a fixed extent also has the count checked against it. *)
Theorem C2_ptr_count_constructor {impl : Implementation}
    (T : cpp_type) (ptr : pointer) (count : index_type) :
  ((exists s, span_ptr_count T dynamic_extent ptr count = Ok s) <->
     ptr_count_precondition ptr count) /\
  (span_ptr_count T dynamic_extent ptr count = ContractViolation <->
     ~ ptr_count_precondition ptr count) /\
  (forall E s, span_ptr_count T E ptr count = Ok s ->
     size s = count /\ data s = ptr /\ ptr_count_precondition ptr count) /\
  (forall E, dynamic_extent <= E -> ~ ptr_count_precondition ptr count ->
     span_ptr_count T E ptr count = ContractViolation) /\
  (forall E, 0 <= E ->
     ((exists s, span_ptr_count T E ptr count = Ok s) <->
        ptr_count_precondition ptr count /\ count = E)) /\
  span_ptr_count T dynamic_extent nullptr 3 = ContractViolation /\
  (exists s, span_ptr_count T dynamic_extent nullptr 0 = Ok s /\
             size s = 0 /\ data s = nullptr).
Proof.
  assert (forall E s, span_ptr_count T E ptr count = Ok s ->
            size s = count /\ data s = ptr /\ ptr_count_precondition ptr count)
    as Hok.
  { intros E s Hs. apply span_ptr_count_Ok in Hs.
    unfold ptr_count_precondition.
    destruct (Z.eq_dec ptr nullptr); intuition lia. }
  assert (forall E, dynamic_extent <= E -> ~ ptr_count_precondition ptr count ->
            span_ptr_count T E ptr count = ContractViolation) as Hviol.
  { intros E HE Hpre. apply span_ptr_count_violation. split; [assumption|].
    unfold ptr_count_precondition, nullptr in *. lia. }
  assert (forall E, E = dynamic_extent \/ E = count ->
            ptr_count_precondition ptr count ->
            exists s, span_ptr_count T E ptr count = Ok s) as Hsucc.
  { intros E HE Hpre. unfold ptr_count_precondition in Hpre.
    destruct (span_ptr_count_succeeds T E ptr count) as (s & Hs & _);
      [lia | intuition lia | assumption | eauto]. }
  split; [split|split; [split|split; [|split; [|split; [|split]]]]].
  - intros (s & Hs). now apply Hok in Hs.
  - apply Hsucc. auto.
  - intros Hv Hpre. destruct (Hsucc dynamic_extent) as (s & Hs); auto.
    congruence.
  - apply Hviol. lia.
  - exact Hok.
  - exact Hviol.
  - intros E HE. split.
    + intros (s & Hs). pose proof (Hok E s Hs) as (_ & _ & Hpre).
      apply span_ptr_count_Ok in Hs. unfold dynamic_extent in *.
      split; [assumption | lia].
    + intros (Hpre & ->). apply Hsucc; auto.
  - apply span_ptr_count_violation. unfold dynamic_extent. split; [lia|].
    right; left; split; [reflexivity | lia].
  - destruct (span_ptr_count_succeeds T dynamic_extent nullptr 0)
      as (s & Hs & Hd & Hz); [lia | auto | auto | eauto].
Qed.

Lemma C2_ptr_count_witness :
  (exists s, span_ptr_count t_int dynamic_extent 4096 5 = Ok s) /\
  span_ptr_count t_int dynamic_extent nullptr 3 = ContractViolation.
Proof.
  destruct (C2_ptr_count_constructor t_int 4096 5) as ((_ & Hsucc) & _).
  destruct (C2_ptr_count_constructor t_int nullptr 3) as (_ & (_ & Hviol) & _).
  split.
  - apply Hsucc. right. unfold nullptr. lia.
  - apply Hviol. unfold ptr_count_precondition, nullptr. lia.
Defined.

(** C7: building the extent of a fixed-extent view ([Extent = E]) from a
    runtime count signals ContractViolation exactly when the count is not
    [E], and so does the pointer and count constructor whenever its own
    pointer precondition holds; [size()] of a fixed-extent view reads no
    stored state and is [E] for every value of the type. *)
Theorem C7_fixed_extent_checked {impl : Implementation}
    (T : cpp_type) (E : index_type) (count : index_type) :
  0 <= E ->
  (extent_type_of_size E count = ContractViolation <-> count <> E) /\
  ((exists e, extent_type_of_size E count = Ok e) <-> count = E) /\
  (forall ptr, ptr_count_precondition ptr count ->
     (span_ptr_count T E ptr count = ContractViolation <-> count <> E)) /\
  (forall ptr s, span_ptr_count T E ptr count = Ok s -> size s = E) /\
  (forall e : extent_type E, extent_size E e = E) /\
  (forall s : span T E, size s = E).
Proof.
  intros HE.
  assert (E <> dynamic_extent) as Hfix by (unfold dynamic_extent; lia).
  split; [split|split; [split|split; [|split; [|split]]]].
  - intros Hv. apply extent_type_of_size_violation in Hv. lia.
  - intros Hne. apply extent_type_of_size_violation. right. lia.
  - intros (e & He). apply extent_type_of_size_Ok in He. lia.
  - intros ->. apply extent_type_of_size_succeeds; [lia | auto].
  - intros ptr Hpre. unfold ptr_count_precondition in Hpre. split.
    + intros Hv. apply span_ptr_count_violation in Hv. lia.
    + intros Hne. apply span_ptr_count_violation.
      unfold dynamic_extent in *. split; [lia|]. right; right. lia.
  - intros ptr s Hs. unfold size. now apply extent_size_fixed.
  - intros e. now apply extent_size_fixed.
  - intros s. unfold size. now apply extent_size_fixed.
Qed.

Lemma C7_fixed_extent_witness :
  extent_type_of_size 5 3 = ContractViolation /\
  span_ptr_count t_int 5 4096 3 = ContractViolation /\
  size example_span_5 = 5.
Proof.
  destruct (C7_fixed_extent_checked t_int 5 3) as (Hext & _ & Hspan & _ & _ & Hsize).
  - lia.
  - split; [|split].
    + apply Hext. lia.
    + apply (Hspan 4096); [right; unfold nullptr; lia | lia].
    + apply Hsize.
Defined.

(** ** Sub-views *)

Section SubviewLemmas.
Context {impl : Implementation}.
Context {T : cpp_type} {E : index_type}.
Variable s : span T E.

Lemma ptr_add_0 (p : pointer) : ptr_add T p 0 = p.
Proof. unfold ptr_add. lia. Qed.

Lemma ptr_add_nonneg (p : pointer) (k : index_type) :
  0 <= k -> p <= ptr_add T p k.
Proof. intros Hk. unfold ptr_add. pose proof (sizeof_pos T). nia. Qed.

Lemma ptr_add_mono (p : pointer) (j k : index_type) :
  j <= k -> ptr_add T p j <= ptr_add T p k.
Proof. intros Hk. unfold ptr_add. pose proof (sizeof_pos T). nia. Qed.

Lemma ptr_add_add (p : pointer) (j k : index_type) :
  ptr_add T (ptr_add T p j) k = ptr_add T p (j + k).
Proof. unfold ptr_add. lia. Qed.

Lemma range_check_true (count : index_type) :
  0 <= count <= size s -> (count >=? 0) && (count <=? size s) = true.
Proof. intros H. apply andb_true_intro; split; lia. Qed.

Lemma range_check_false (count : index_type) :
  count < 0 \/ size s < count -> (count >=? 0) && (count <=? size s) = false.
Proof. intros H. apply andb_false_iff. lia. Qed.

Lemma subspan_check_true (offset count : index_type) :
  size s <= PTRDIFF_MAX -> subspan_precondition s offset count ->
  ((offset =? 0) || ((offset >? 0) && (offset <=? size s))) &&
  ((count =? dynamic_extent) ||
   ((count >=? 0) && (index_add offset count <=? size s))) = true.
Proof.
  intros Hmax (Ho & Hc). apply andb_true_intro; split.
  - destruct (Z.eqb_spec offset 0); [reflexivity|]. simpl.
    apply andb_true_intro; split; lia.
  - destruct (Z.eqb_spec count dynamic_extent) as [|Hd]; [reflexivity|]. simpl.
    destruct Hc as [|Hc]; [contradiction|].
    rewrite index_add_id by (pose proof PTRDIFF_MIN_MAX; lia).
    apply andb_true_intro; split; lia.
Qed.

(** The check agrees with the precondition as long as [offset + count]
    is an [index_type]. *)
Lemma subspan_check_false (offset count : index_type) :
  0 <= size s ->
  PTRDIFF_MIN <= offset + count <= PTRDIFF_MAX ->
  ~ subspan_precondition s offset count ->
  ((offset =? 0) || ((offset >? 0) && (offset <=? size s))) &&
  ((count =? dynamic_extent) ||
   ((count >=? 0) && (index_add offset count <=? size s))) = false.
Proof.
  intros Hs Hrange Hpre. unfold subspan_precondition in Hpre.
  rewrite index_add_id by assumption.
  destruct (Z.eqb_spec offset 0); destruct (Z.gtb_spec offset 0);
    destruct (Z.leb_spec offset (size s));
    destruct (Z.eqb_spec count dynamic_extent);
    destruct (Z.geb_spec count 0);
    destruct (Z.leb_spec (offset + count) (size s)); simpl; try reflexivity; lia.
Qed.

Lemma span_instantiated_Ok (Count : index_type) :
  dynamic_extent <= Count -> span_instantiated Count = Ok tt.
Proof.
  intros H. unfold span_instantiated.
  replace ((Count =? dynamic_extent) || (Count >=? 0)) with true; [reflexivity|].
  symmetry; apply orb_true_iff. unfold dynamic_extent in *. lia.
Qed.

Section AnyExtent.
(** The sub-view constructed at the end of every form, for the extent
    [E'] of the result and the pointer and count handed over. *)
Variable E' : index_type.

Lemma subview_succeeds (k n : index_type) :
  span_invariant s -> 0 <= k -> 0 <= n -> k + n <= size s ->
  E' = dynamic_extent \/ E' = n ->
  exists r : span T E',
    span_ptr_count T E' (ptr_add T (data s) k) n = Ok r /\
    data r = ptr_add T (data s) k /\ size r = n.
Proof.
  intros (Hsz & Hd & Hnull) Hk Hn Hkn HE.
  apply span_ptr_count_succeeds; try assumption.
  intros Hp. unfold ptr_add, nullptr in *. pose proof (sizeof_pos T).
  assert (data s = 0) as Hz by nia. specialize (Hnull Hz). lia.
Qed.

End AnyExtent.

Lemma first_succeeds (count : index_type) :
  span_invariant s -> 0 <= count <= size s ->
  exists r, first s count = Ok r /\ data r = data s /\ size r = count.
Proof.
  intros Hinv Hc. unfold first. rewrite (range_check_true count Hc). simpl.
  destruct (subview_succeeds dynamic_extent 0 count) as (r & Hr & Hd & Hs);
    try lia; auto.
  rewrite ptr_add_0 in Hr, Hd. eauto.
Qed.

Lemma first_static_succeeds (Count : index_type) :
  span_invariant s -> 0 <= Count <= size s ->
  exists r, first_static s Count = Ok r /\ data r = data s /\ size r = Count.
Proof.
  intros Hinv Hc. unfold first_static.
  rewrite span_instantiated_Ok by (unfold dynamic_extent; lia). simpl.
  rewrite (range_check_true Count Hc). simpl.
  destruct (subview_succeeds Count 0 Count) as (r & Hr & Hd & Hs);
    try lia; auto.
  rewrite ptr_add_0 in Hr, Hd. eauto.
Qed.

Lemma first_violation (count : index_type) :
  count < 0 \/ size s < count -> first s count = ContractViolation.
Proof.
  intros Hc. unfold first. rewrite (range_check_false count Hc). reflexivity.
Qed.

Lemma first_static_violation (Count : index_type) :
  dynamic_extent <= Count -> Count < 0 \/ size s < Count ->
  first_static s Count = ContractViolation.
Proof.
  intros Hwf Hc. unfold first_static.
  rewrite span_instantiated_Ok by assumption.
  simpl. rewrite (range_check_false Count Hc). reflexivity.
Qed.

Lemma last_succeeds (count : index_type) :
  span_invariant s -> 0 <= count <= size s ->
  exists r, last s count = Ok r /\ size r = count /\
    data r = if count =? 0 then data s
             else ptr_add T (data s) (size s - count).
Proof.
  intros Hinv Hc. unfold last. rewrite (range_check_true count Hc). simpl.
  pose proof Hinv as (Hsz & _).
  rewrite index_sub_id by (pose proof PTRDIFF_MIN_MAX; lia).
  destruct (Z.eqb_spec count 0) as [Hz|Hz].
  - destruct (subview_succeeds dynamic_extent 0 count) as (r & Hr & Hd & Hs);
      try lia; auto.
    rewrite ptr_add_0 in Hr, Hd. eauto.
  - destruct (subview_succeeds dynamic_extent (size s - count) count)
      as (r & Hr & Hd & Hs); try lia; auto. eauto.
Qed.

Lemma last_static_succeeds (Count : index_type) :
  span_invariant s -> 0 <= Count <= size s ->
  exists r, last_static s Count = Ok r /\ size r = Count /\
    data r = if Count =? 0 then data s
             else ptr_add T (data s) (size s - Count).
Proof.
  intros Hinv Hc. unfold last_static.
  rewrite span_instantiated_Ok by (unfold dynamic_extent; lia). simpl.
  rewrite (range_check_true Count Hc). simpl.
  pose proof Hinv as (Hsz & _).
  rewrite index_sub_id by (pose proof PTRDIFF_MIN_MAX; lia).
  destruct (Z.eqb_spec Count 0) as [Hz|Hz].
  - destruct (subview_succeeds Count 0 Count) as (r & Hr & Hd & Hs);
      try lia; auto.
    rewrite ptr_add_0 in Hr, Hd. eauto.
  - destruct (subview_succeeds Count (size s - Count) Count)
      as (r & Hr & Hd & Hs); try lia; auto. eauto.
Qed.

Lemma subspan_succeeds (offset count : index_type) :
  span_invariant s -> subspan_precondition s offset count ->
  exists r, subspan s offset count = Ok r /\
    data r = ptr_add T (data s) offset /\
    size r = if count =? dynamic_extent then size s - offset else count.
Proof.
  intros Hinv Hpre. pose proof Hinv as (Hsz & _). unfold subspan.
  rewrite (subspan_check_true offset count) by (assumption || lia). simpl.
  destruct Hpre as (Ho & Hc).
  rewrite index_sub_id by (pose proof PTRDIFF_MIN_MAX; lia).
  destruct (Z.eqb_spec count dynamic_extent) as [Hd|Hd].
  - apply subview_succeeds; try lia; auto.
  - destruct Hc as [|Hc]; [contradiction|].
    apply subview_succeeds; try lia; auto.
Qed.

Lemma subspan_static_succeeds (Offset Count : index_type) :
  span_invariant s -> subspan_precondition s Offset Count ->
  exists r, subspan_static s Offset Count = Ok r /\
    data r = ptr_add T (data s) Offset /\
    size r = if Count =? dynamic_extent then size s - Offset else Count.
Proof.
  intros Hinv Hpre. pose proof Hinv as (Hsz & _).
  unfold subspan_static.
  rewrite span_instantiated_Ok
    by (destruct Hpre as (_ & [Hd|Hc]); unfold dynamic_extent in *; lia).
  simpl.
  rewrite (subspan_check_true Offset Count) by (assumption || lia). simpl.
  destruct Hpre as (Ho & Hc).
  rewrite index_sub_id by (pose proof PTRDIFF_MIN_MAX; lia).
  destruct (Z.eqb_spec Count dynamic_extent) as [Hd|Hd].
  - apply subview_succeeds; try lia; auto.
  - destruct Hc as [|Hc]; [contradiction|].
    apply subview_succeeds; try lia; auto.
Qed.

Lemma subspan_violation (offset count : index_type) :
  0 <= size s ->
  PTRDIFF_MIN <= offset + count <= PTRDIFF_MAX ->
  ~ subspan_precondition s offset count ->
  subspan s offset count = ContractViolation.
Proof.
  intros Hs Hr Hpre. unfold subspan.
  rewrite (subspan_check_false offset count Hs Hr Hpre). reflexivity.
Qed.

End SubviewLemmas.

(** ** The content of a sub-view *)

Lemma firstn_seq_le (n start len : nat) :
  (n <= len)%nat -> firstn n (seq start len) = seq start n.
Proof.
  intros H. replace len with (n + (len - n))%nat by lia.
  rewrite seq_app, firstn_app, length_seq, Nat.sub_diag. simpl.
  rewrite app_nil_r. apply firstn_all2. rewrite length_seq. lia.
Qed.

Lemma seq_from (start len : nat) :
  seq start len = List.map (fun i => (start + i)%nat) (seq 0 len).
Proof.
  revert start. induction len as [|len IH]; intros start; [reflexivity|].
  simpl. rewrite Nat.add_0_r. f_equal.
  rewrite <- (seq_shift len 0), List.map_map, (IH (S start)).
  apply List.map_ext. intros i. lia.
Qed.

Section ContentLemmas.
Context {impl : Implementation}.
Context {V : Type} (m : memory V).
Context {T : cpp_type}.

Lemma elements_eq {E : index_type} (s : span T E) :
  elements m s =
  List.map (fun i => Ok (m (ptr_add T (data s) (Z.of_nat i))))
           (seq 0 (Z.to_nat (size s))).
Proof.
  unfold elements. apply List.map_ext_in. intros i Hi. apply in_seq in Hi.
  rewrite operator_subscript_in_range by lia. reflexivity.
Qed.

Lemma elements_length {E : index_type} (s : span T E) :
  List.length (elements m s) = Z.to_nat (size s).
Proof. unfold elements. now rewrite List.length_map, length_seq. Qed.

(** A view of [n] elements that starts [k] elements into [s] reads the
    [n] elements of [s] from index [k] on. *)
Lemma elements_subview {E E' : index_type} (s : span T E) (r : span T E')
    (k n : index_type) :
  0 <= k -> 0 <= n -> k + n <= size s ->
  size r = n -> n = 0 \/ data r = ptr_add T (data s) k ->
  elements m r = firstn (Z.to_nat n) (skipn (Z.to_nat k) (elements m s)).
Proof.
  intros Hk Hn Hkn Hsz Hd. rewrite !elements_eq, Hsz.
  rewrite skipn_map, firstn_map, skipn_seq, firstn_seq_le by lia.
  destruct Hd as [->|Hd]; [reflexivity|].
  simpl. rewrite (seq_from (Z.to_nat k)), List.map_map.
  apply List.map_ext. intros i. rewrite Hd, ptr_add_add.
  do 3 f_equal. lia.
Qed.

Lemma elements_same {E E' : index_type} (s : span T E) (r : span T E') :
  data r = data s -> size r = size s -> elements m r = elements m s.
Proof. intros Hd Hs. rewrite !elements_eq, Hd, Hs. reflexivity. Qed.

End ContentLemmas.

(** ** The invariants are established and kept *)

Section Invariants.
Context {impl : Implementation}.
Context {T : cpp_type}.

Lemma span_ptr_count_invariant (E : index_type) (p : pointer) (c : index_type)
    (s : span T E) :
  0 <= p -> c <= PTRDIFF_MAX ->
  span_ptr_count T E p c = Ok s -> span_invariant s.
Proof.
  intros Hp Hc Hs. apply span_ptr_count_Ok in Hs as (Hd & Hsz & H0 & Hn & _).
  unfold span_invariant. rewrite Hd, Hsz. auto.
Qed.

Lemma subview_invariant {E E' : index_type} (s : span T E) (r : span T E')
    (k : index_type) :
  span_invariant s -> 0 <= k -> 0 <= size r -> k + size r <= size s ->
  data r = ptr_add T (data s) k -> span_invariant r.
Proof.
  intros (Hsz & Hd & Hnull) Hk Hr Hkr Hdr. unfold span_invariant.
  pose proof (ptr_add_nonneg (T := T) (data s) k Hk) as Hp.
  rewrite Hdr. repeat split; try lia.
  intros Hz. unfold ptr_add, nullptr in *. pose proof (sizeof_pos T).
  assert (data s = 0) as Hs by nia. specialize (Hnull Hs). lia.
Qed.

(** Every sub-view of a view that satisfies the invariants satisfies
    them. *)
Lemma subviews_keep_invariant {E : index_type} (s : span T E) :
  span_invariant s ->
  (forall count r, first s count = Ok r -> span_invariant r) /\
  (forall count r, last s count = Ok r -> span_invariant r) /\
  (forall offset count r,
     subspan_precondition s offset count ->
     subspan s offset count = Ok r -> span_invariant r).
Proof.
  intros Hinv. pose proof Hinv as (Hsz & _). split; [|split].
  - intros count r Hr.
    assert (0 <= count <= size s) as Hc.
    { destruct (Z_lt_le_dec count 0) as [Hlt|Hge];
        [rewrite first_violation in Hr by lia; discriminate|].
      destruct (Z_lt_le_dec (size s) count) as [Hlt|Hle];
        [rewrite first_violation in Hr by lia; discriminate | lia]. }
    destruct (first_succeeds s count Hinv Hc) as (r' & Hr' & Hd & Hs).
    assert (r' = r) as -> by congruence.
    apply (subview_invariant s r 0); try lia; auto.
    now rewrite ptr_add_0.
  - intros count r Hr.
    assert (0 <= count <= size s) as Hc.
    { unfold last in Hr. apply bind_Ok_inv in Hr as (u & Hu & _).
      apply Expects_Ok_inv in Hu. lia. }
    destruct (last_succeeds s count Hinv Hc) as (r' & Hr' & Hs & Hd).
    assert (r' = r) as -> by congruence.
    destruct (Z.eqb_spec count 0).
    + apply (subview_invariant s r 0); try lia; auto. now rewrite ptr_add_0.
    + apply (subview_invariant s r (size s - count)); try lia; auto.
  - intros offset count r Hpre Hr. pose proof Hpre as (Ho & Hc).
    destruct (subspan_succeeds s offset count Hinv Hpre) as (r' & Hr' & Hd & Hs).
    assert (r' = r) as -> by congruence.
    apply (subview_invariant s r offset); try lia; auto;
      destruct (Z.eqb_spec count dynamic_extent); lia.
Qed.

End Invariants.

(** Where [offset + count] leaves the range of [index_type], the check
    of [subspan] compares the wrapped sum (the language leaves the
    overflow undefined, the hardware wraps): on the five-element view a
    count of [PTRDIFF_MAX] at offset 1 passes it. *)
Remark subspan_count_overflow :
  ~ subspan_precondition example_span 1 PTRDIFF_MAX /\
  (r <- subspan example_span 1 PTRDIFF_MAX ;; Ok (data r, size r))
  = Ok (4100, PTRDIFF_MAX).
Proof.
  split; [|reflexivity].
  unfold subspan_precondition. change (size example_span) with 5.
  change PTRDIFF_MAX with (2 ^ 63 - 1). unfold dynamic_extent. lia.
Qed.

Lemma example_span_invariant : span_invariant example_span.
Proof.
  unfold span_invariant. change (size example_span) with 5.
  change (data example_span) with 4096. change PTRDIFF_MAX with (2 ^ 63 - 1).
  unfold nullptr. lia.
Defined.

(** C6: for [0 <= count <= size()], [first(count)] and [first<count>()]
    return a view with the same [data()], with [size() = count], whose
    elements are the first [count] elements of the source; a count
    outside that range signals ContractViolation; [first(size())] has the
    content of the source. *)
Theorem C6_first_leading_elements {impl : Implementation}
    (T : cpp_type) (E : index_type) (s : span T E) (count : index_type) :
  (span_invariant s -> 0 <= count <= size s ->
     (exists r, first s count = Ok r /\ data r = data s /\ size r = count /\
        forall (V : Type) (m : memory V),
          elements m r = firstn (Z.to_nat count) (elements m s)) /\
     (exists r, first_static s count = Ok r /\ data r = data s /\ size r = count /\
        forall (V : Type) (m : memory V),
          elements m r = firstn (Z.to_nat count) (elements m s))) /\
  (count < 0 \/ size s < count ->
     first s count = ContractViolation /\
     (dynamic_extent <= count -> first_static s count = ContractViolation)) /\
  (span_invariant s ->
     exists r, first s (size s) = Ok r /\ data r = data s /\ size r = size s /\
       forall (V : Type) (m : memory V), elements m r = elements m s).
Proof.
  split; [|split].
  - intros Hinv Hc. split.
    + destruct (first_succeeds s count Hinv Hc) as (r & Hr & Hd & Hs).
      exists r. repeat split; try assumption. intros V m.
      rewrite (elements_subview m s r 0 count)
        by (lia || (right; rewrite ptr_add_0; assumption)).
      reflexivity.
    + destruct (first_static_succeeds s count Hinv Hc) as (r & Hr & Hd & Hs).
      exists r. repeat split; try assumption. intros V m.
      rewrite (elements_subview m s r 0 count)
        by (lia || (right; rewrite ptr_add_0; assumption)).
      reflexivity.
  - intros Hc. split.
    + now apply first_violation.
    + intros Hwf. now apply first_static_violation.
  - intros Hinv. pose proof Hinv as (Hsz & _).
    destruct (first_succeeds s (size s) Hinv) as (r & Hr & Hd & Hs); [lia|].
    exists r. repeat split; try assumption. intros V m.
    now apply elements_same.
Qed.

Lemma C6_first_witness :
  (exists r, first example_span 2 = Ok r /\ data r = 4096 /\ size r = 2) /\
  first example_span 6 = ContractViolation.
Proof.
  destruct (C6_first_leading_elements t_int dynamic_extent example_span 2)
    as (Hin & _ & _).
  destruct (C6_first_leading_elements t_int dynamic_extent example_span 6)
    as (_ & Hout & _).
  split.
  - destruct Hin as ((r & Hr & Hd & Hs & _) & _).
    + exact example_span_invariant.
    + change (0 <= 2 <= 5). lia.
    + exists r. auto.
  - apply Hout. change (6 < 0 \/ 5 < 6). lia.
Defined.

(** C3: for [0 <= count <= size()], [last(count)] and [last<count>()]
    return a view of the trailing [count] elements: [size()] is [count],
    [data()] is [data() + (size() - count)] of the source when
    [count > 0], and the source's own [data()] when [count = 0]. *)
Theorem C3_last_trailing_elements {impl : Implementation}
    (T : cpp_type) (E : index_type) (s : span T E) (count : index_type) :
  span_invariant s -> 0 <= count <= size s ->
  (exists r, last s count = Ok r /\ size r = count /\
     (0 < count -> data r = ptr_add T (data s) (size s - count)) /\
     (count = 0 -> data r = data s /\
        (0 < size s -> data r <> ptr_add T (data s) (size s - count))) /\
     forall (V : Type) (m : memory V),
       elements m r = skipn (Z.to_nat (size s - count)) (elements m s)) /\
  (exists r, last_static s count = Ok r /\ size r = count /\
     (0 < count -> data r = ptr_add T (data s) (size s - count)) /\
     (count = 0 -> data r = data s /\
        (0 < size s -> data r <> ptr_add T (data s) (size s - count))) /\
     forall (V : Type) (m : memory V),
       elements m r = skipn (Z.to_nat (size s - count)) (elements m s)).
Proof.
  intros Hinv Hc.
  assert (forall E' (r : span T E'),
            size r = count ->
            data r = (if count =? 0 then data s
                      else ptr_add T (data s) (size s - count)) ->
            (0 < count -> data r = ptr_add T (data s) (size s - count)) /\
            (count = 0 -> data r = data s /\
               (0 < size s -> data r <> ptr_add T (data s) (size s - count))) /\
            forall (V : Type) (m : memory V),
              elements m r = skipn (Z.to_nat (size s - count)) (elements m s))
    as Hgen.
  { intros E' r Hs Hd. destruct (Z.eqb_spec count 0) as [Hz|Hz].
    - split; [lia|]. split.
      { intros _. split; [assumption|]. intros Hpos. rewrite Hd.
        unfold ptr_add. pose proof (sizeof_pos T). nia. }
      intros V m.
      rewrite (elements_subview m s r (size s - count) count)
        by (lia || (left; assumption)).
      apply firstn_all2. rewrite length_skipn, elements_length. lia.
    - split; [auto|]. split; [lia|]. intros V m.
      rewrite (elements_subview m s r (size s - count) count)
        by (lia || (right; assumption)).
      apply firstn_all2. rewrite length_skipn, elements_length. lia. }
  split.
  - destruct (last_succeeds s count Hinv Hc) as (r & Hr & Hs & Hd).
    exists r. split; [assumption|]. split; [assumption|]. now apply Hgen.
  - destruct (last_static_succeeds s count Hinv Hc) as (r & Hr & Hs & Hd).
    exists r. split; [assumption|]. split; [assumption|]. now apply Hgen.
Qed.

Lemma C3_last_witness :
  (exists r, last example_span 2 = Ok r /\ size r = 2 /\ data r = 4108) /\
  (exists r, last example_span 0 = Ok r /\ size r = 0 /\ data r = 4096).
Proof.
  split.
  - destruct (C3_last_trailing_elements t_int dynamic_extent example_span 2)
      as ((r & Hr & Hs & Hd & _) & _).
    + exact example_span_invariant.
    + change (0 <= 2 <= 5). lia.
    + exists r. split; [assumption|]. split; [assumption|]. apply Hd. lia.
  - destruct (C3_last_trailing_elements t_int dynamic_extent example_span 0)
      as ((r & Hr & Hs & _ & Hd & _) & _).
    + exact example_span_invariant.
    + change (0 <= 0 <= 5). lia.
    + exists r. split; [assumption|]. split; [assumption|]. now apply Hd.
Defined.

(** C5: under the precondition [0 <= offset <= size()] and ([count] is
    [dynamic_extent], or [0 <= count] and [offset + count <= size()]),
    [subspan(offset, count)] and [subspan<offset, count>()] return the
    view that starts [offset] elements in; its size is [count], or
    [size() - offset] when [count] is [dynamic_extent]; and
    [subspan(0, size())] has the [data()], the [size()] and the content of
    the source. *)
Theorem C5_subspan_postcondition {impl : Implementation}
    (T : cpp_type) (E : index_type) (s : span T E) (offset count : index_type) :
  span_invariant s ->
  (subspan_precondition s offset count ->
     (exists r, subspan s offset count = Ok r /\
        data r = ptr_add T (data s) offset /\
        size r = (if count =? dynamic_extent then size s - offset else count) /\
        forall (V : Type) (m : memory V),
          elements m r =
          firstn (Z.to_nat (size r)) (skipn (Z.to_nat offset) (elements m s))) /\
     (exists r, subspan_static s offset count = Ok r /\
        data r = ptr_add T (data s) offset /\
        size r = (if count =? dynamic_extent then size s - offset else count) /\
        forall (V : Type) (m : memory V),
          elements m r =
          firstn (Z.to_nat (size r)) (skipn (Z.to_nat offset) (elements m s)))) /\
  (0 <= offset <= size s ->
     exists r, subspan s offset dynamic_extent = Ok r /\
       size r = size s - offset) /\
  (exists r, subspan s 0 (size s) = Ok r /\
     data r = data s /\ size r = size s /\
     forall (V : Type) (m : memory V), elements m r = elements m s).
Proof.
  intros Hinv. pose proof Hinv as (Hsz & _).
  assert (forall E' (r : span T E') o c,
            subspan_precondition s o c ->
            data r = ptr_add T (data s) o ->
            size r = (if c =? dynamic_extent then size s - o else c) ->
            forall (V : Type) (m : memory V),
              elements m r =
              firstn (Z.to_nat (size r)) (skipn (Z.to_nat o) (elements m s)))
    as Hgen.
  { intros E' r o c (Ho & Hc) Hd Hs V m.
    apply elements_subview; auto; try lia;
      destruct (Z.eqb_spec c dynamic_extent); lia. }
  split; [|split].
  - intros Hpre. split.
    + destruct (subspan_succeeds s offset count Hinv Hpre) as (r & Hr & Hd & Hs).
      exists r. repeat split; try assumption. now apply (Hgen _ r offset count).
    + destruct (subspan_static_succeeds s offset count Hinv Hpre)
        as (r & Hr & Hd & Hs).
      exists r. repeat split; try assumption. now apply (Hgen _ r offset count).
  - intros Ho.
    destruct (subspan_succeeds s offset dynamic_extent Hinv) as (r & Hr & _ & Hs).
    + split; auto.
    + exists r. split; [assumption|]. exact Hs.
  - destruct (subspan_succeeds s 0 (size s) Hinv) as (r & Hr & Hd & Hs).
    + split; [lia|]. right. lia.
    + rewrite ptr_add_0 in Hd.
      replace (size s =? dynamic_extent) with false in Hs
        by (symmetry; apply Z.eqb_neq; unfold dynamic_extent; lia).
      exists r. repeat split; try assumption. intros V m.
      now apply elements_same.
Qed.

Lemma C5_subspan_witness :
  (exists r, subspan example_span 1 3 = Ok r /\ data r = 4100 /\ size r = 3) /\
  (exists r, subspan example_span 0 5 = Ok r /\ data r = 4096 /\ size r = 5).
Proof.
  split.
  - destruct (C5_subspan_postcondition t_int dynamic_extent example_span 1 3
                example_span_invariant) as (((r & Hr & Hd & Hs & _) & _) & _).
    + unfold subspan_precondition. change (size example_span) with 5.
      unfold dynamic_extent. lia.
    + exists r. auto.
  - destruct (C5_subspan_postcondition t_int dynamic_extent example_span 0 5
                example_span_invariant) as (_ & _ & (r & Hr & Hd & Hs & _)).
    exists r. auto.
Defined.

(** C9: under its precondition every sub-view operation, in the runtime
    and in the compile-time form, returns a view whose element range
    [data(), data() + size()) lies inside the range of the source. *)
Theorem C9_slicing_only_narrows {impl : Implementation}
    (T : cpp_type) (E : index_type) (s : span T E) :
  span_invariant s ->
  (forall count, 0 <= count <= size s ->
     (exists r, first s count = Ok r /\ within r s) /\
     (exists r, first_static s count = Ok r /\ within r s) /\
     (exists r, last s count = Ok r /\ within r s) /\
     (exists r, last_static s count = Ok r /\ within r s)) /\
  (forall offset count, subspan_precondition s offset count ->
     (exists r, subspan s offset count = Ok r /\ within r s) /\
     (exists r, subspan_static s offset count = Ok r /\ within r s)).
Proof.
  intros Hinv. pose proof Hinv as (Hsz & _).
  assert (forall E' (r : span T E') k,
            0 <= k -> 0 <= size r -> k + size r <= size s ->
            size r = 0 /\ data r = data s \/ data r = ptr_add T (data s) k ->
            within r s) as Hgen.
  { intros E' r k Hk Hr Hkr Hd. unfold within.
    destruct Hd as [(Hz & Hd)|Hd]; rewrite Hd.
    - rewrite Hz, ptr_add_0. split; [lia|]. apply ptr_add_nonneg. lia.
    - split; [now apply ptr_add_nonneg|].
      rewrite ptr_add_add. apply ptr_add_mono. lia. }
  split.
  - intros count Hc. repeat split.
    + destruct (first_succeeds s count Hinv Hc) as (r & Hr & Hd & Hs).
      exists r. split; [assumption|]. apply (Hgen _ r 0); try lia.
      right. now rewrite ptr_add_0.
    + destruct (first_static_succeeds s count Hinv Hc) as (r & Hr & Hd & Hs).
      exists r. split; [assumption|]. apply (Hgen _ r 0); try lia.
      right. now rewrite ptr_add_0.
    + destruct (last_succeeds s count Hinv Hc) as (r & Hr & Hs & Hd).
      exists r. split; [assumption|]. apply (Hgen _ r (size s - count)); try lia.
      destruct (Z.eqb_spec count 0); [left; split; lia | right; assumption].
    + destruct (last_static_succeeds s count Hinv Hc) as (r & Hr & Hs & Hd).
      exists r. split; [assumption|]. apply (Hgen _ r (size s - count)); try lia.
      destruct (Z.eqb_spec count 0); [left; split; lia | right; assumption].
  - intros offset count Hpre. pose proof Hpre as (Ho & Hc). split.
    + destruct (subspan_succeeds s offset count Hinv Hpre) as (r & Hr & Hd & Hs).
      exists r. split; [assumption|].
      apply (Hgen _ r offset); auto; try lia;
        destruct (Z.eqb_spec count dynamic_extent); lia.
    + destruct (subspan_static_succeeds s offset count Hinv Hpre)
        as (r & Hr & Hd & Hs).
      exists r. split; [assumption|].
      apply (Hgen _ r offset); auto; try lia;
        destruct (Z.eqb_spec count dynamic_extent); lia.
Qed.

Lemma C9_slicing_witness :
  (exists r, last example_span 2 = Ok r /\ within r example_span) /\
  (exists r, subspan example_span 1 3 = Ok r /\ within r example_span).
Proof.
  destruct (C9_slicing_only_narrows t_int dynamic_extent example_span
              example_span_invariant) as (Hcount & Hsub).
  split.
  - apply (Hcount 2). change (0 <= 2 <= 5). lia.
  - apply (Hsub 1 3). unfold subspan_precondition.
    change (size example_span) with 5. unfold dynamic_extent. lia.
Defined.

Lemma is_same_false (a b : cpp_type) : a <> b -> is_same a b = false.
Proof. intros H. unfold is_same. destruct (cpp_type_eq_dec a b); congruence. Qed.

(** ** The other constructors *)

Section ConstructorLemmas.
Context {impl : Implementation}.
Variable T : cpp_type.
Variable E : index_type.

Lemma storage_of_size_Ok (p : pointer) (n : index_type)
    (st : storage_type (extent_type E)) :
  storage_of_size E p n = Ok st ->
  data_ st = p /\ extent_size E (extent_base st) = n /\ 0 <= n /\
  (E = dynamic_extent \/ E = n).
Proof.
  unfold storage_of_size. intros H.
  apply bind_Ok_inv in H as (e & He & H). injection H as <-.
  apply extent_type_of_size_Ok in He. simpl. tauto.
Qed.

Lemma storage_of_size_succeeds (p : pointer) (n : index_type) :
  0 <= n -> E = dynamic_extent \/ E = n ->
  exists st, storage_of_size E p n = Ok st /\
    data_ st = p /\ extent_size E (extent_base st) = n.
Proof.
  intros Hn HE. destruct (extent_type_of_size_succeeds E n Hn HE) as (e & He).
  exists {| extent_base := e; data_ := p |}.
  unfold storage_of_size. rewrite He. simpl. split; [reflexivity|].
  split; [reflexivity|]. apply extent_type_of_size_Ok in He. tauto.
Qed.

Lemma storage_of_extent_Ok (Other : index_type) (p : pointer)
    (ext : extent_type Other) (st : storage_type (extent_type E)) :
  storage_of_extent E Other p ext = Ok st ->
  data_ st = p /\
  ((E = dynamic_extent /\
    extent_size E (extent_base st) = extent_size Other ext) \/
   (E <> dynamic_extent /\ 0 <= E /\ Other = E /\
    extent_size E (extent_base st) = E)).
Proof.
  unfold storage_of_extent. intros H.
  apply bind_Ok_inv in H as (e & He & H). injection H as <-.
  apply extent_type_of_extent_Ok in He. simpl. tauto.
Qed.

Lemma span_first_last_Ok (firstElem lastElem : pointer) (s : span T E) :
  span_first_last T E firstElem lastElem = Ok s ->
  data s = firstElem /\ size s = distance T firstElem lastElem /\ 0 <= size s.
Proof.
  unfold span_first_last. intros H.
  apply bind_Ok_inv in H as (st & Hst & H). injection H as <-.
  apply storage_of_size_Ok in Hst. unfold data, size. simpl. intuition lia.
Qed.

Lemma span_first_last_violation (firstElem lastElem : pointer) :
  dynamic_extent <= E -> distance T firstElem lastElem < 0 ->
  span_first_last T E firstElem lastElem = ContractViolation.
Proof.
  intros HE Hd. unfold span_first_last, storage_of_size.
  assert (extent_type_of_size E (distance T firstElem lastElem)
          = ContractViolation) as ->; [|reflexivity].
  apply extent_type_of_size_violation. unfold dynamic_extent in *. lia.
Qed.

Lemma span_array_Ok (N : Z) (arr : pointer) (s : span T E) :
  span_array T E N arr = Ok s ->
  data s = arr /\ size s = N /\ 0 <= N /\ (E = dynamic_extent \/ E = N).
Proof.
  unfold span_array. intros H.
  apply bind_Ok_inv in H as (ext & Hext & H).
  apply bind_Ok_inv in H as (st & Hst & H). injection H as <-.
  apply extent_type_default_Ok in Hext as (HN & Hsz).
  apply storage_of_extent_Ok in Hst as (Hd & Hst).
  unfold data, size. simpl. rewrite Hsz in Hst. intuition lia.
Qed.

Lemma span_array_succeeds (N : Z) (arr : pointer) :
  0 <= N -> E = dynamic_extent \/ E = N ->
  exists s, span_array T E N arr = Ok s /\ data s = arr /\ size s = N.
Proof.
  intros HN HE. destruct (extent_type_default_succeeds N HN) as (ext & Hext).
  destruct (extent_type_of_extent_succeeds E N ext) as (e & He); [intuition lia|].
  assert (span_array T E N arr
          = Ok {| storage_ := {| extent_base := e; data_ := arr |} |}) as Hs.
  { unfold span_array, storage_of_extent. rewrite Hext. simpl. rewrite He.
    reflexivity. }
  eexists. split; [exact Hs|]. apply span_array_Ok in Hs. tauto.
Qed.

Lemma span_default_Ok (s : span T E) :
  span_default T E = Ok s -> data s = nullptr /\ size s = 0.
Proof.
  unfold span_default. intros H.
  apply bind_Ok_inv in H as (ext & Hext & H).
  apply bind_Ok_inv in H as (st & Hst & H). injection H as <-.
  apply extent_type_default_Ok in Hext as (_ & Hsz).
  apply storage_of_extent_Ok in Hst as (Hd & Hst).
  unfold data, size. simpl. rewrite Hsz in Hst. intuition lia.
Qed.

Lemma span_converting_Ok {T' : cpp_type} {E' : index_type}
    (other : span T' E') (s : span T E) :
  span_converting T E other = Ok s ->
  data s = data other /\ size s = size other /\ 0 <= size s /\
  (E = dynamic_extent \/ E = size other) /\
  is_same T T' = false /\
  details.is_allowed_element_type_conversion T' T = true.
Proof.
  unfold span_converting. intros H.
  apply bind_Ok_inv in H as (u & Hen & H).
  apply bind_Ok_inv in H as (p & Hp & H).
  apply bind_Ok_inv in H as (st & Hst & H). injection H as <-.
  unfold reinterpret_cast in Hp.
  destruct (casts_away_constness T' T); [discriminate|]. injection Hp as <-.
  apply storage_of_size_Ok in Hst. unfold data, size, length in *.
  simpl. unfold enable_if_t in Hen.
  destruct (is_same T T'); simpl in Hen; [discriminate|].
  destruct (details.is_allowed_element_type_conversion T' T); [|discriminate].
  intuition lia.
Qed.

Lemma span_converting_kept {T' : cpp_type} {E' : index_type}
    (other : span T' E') :
  span_converting T E other <> IllFormed ->
  casts_away_constness T' T = false.
Proof.
  unfold span_converting, reinterpret_cast. intros H.
  destruct (casts_away_constness T' T); [|reflexivity].
  exfalso. apply H. unfold enable_if_t. destruct (_ && _); reflexivity.
Qed.

Lemma span_converting_succeeds {T' : cpp_type} {E' : index_type}
    (other : span T' E') :
  T <> T' -> details.is_allowed_element_type_conversion T' T = true ->
  casts_away_constness T' T = false ->
  0 <= size other -> E = dynamic_extent \/ E = size other ->
  exists s, span_converting T E other = Ok s /\
    data s = data other /\ size s = size other.
Proof.
  intros Hne Hal Hcast Hsz HE.
  destruct (storage_of_size_succeeds (data other) (size other) Hsz HE)
    as (st & Hst & _).
  assert (span_converting T E other = Ok {| storage_ := st |}) as Hs.
  { unfold span_converting, is_same, reinterpret_cast.
    destruct (cpp_type_eq_dec T T'); [contradiction|]. rewrite Hal, Hcast. simpl.
    unfold length. rewrite Hst. reflexivity. }
  eexists. split; [exact Hs|]. apply span_converting_Ok in Hs. tauto.
Qed.

(** Where the constructor is enabled and its cast compiles, it is the
    extent's check of the source's length. *)
Lemma span_converting_enabled {T' : cpp_type} {E' : index_type}
    (other : span T' E') :
  T <> T' -> details.is_allowed_element_type_conversion T' T = true ->
  casts_away_constness T' T = false ->
  span_converting T E other
  = (st <- storage_of_size E (data other) (size other) ;;
     Ok {| storage_ := st |}).
Proof.
  intros Hne Hal Hcast. unfold span_converting, reinterpret_cast, length.
  apply is_same_false in Hne. rewrite Hne, Hal, Hcast. reflexivity.
Qed.

(** A cast that drops a qualifier leaves no conversion. *)
Lemma span_converting_cast_ill_formed {T' : cpp_type} {E' : index_type}
    (other : span T' E') :
  casts_away_constness T' T = true -> span_converting T E other = IllFormed.
Proof.
  intros Hcast. unfold span_converting, reinterpret_cast, enable_if_t.
  rewrite Hcast. destruct (_ && _); reflexivity.
Qed.

(** Between views of one element type the template is disabled. *)
Lemma span_converting_same_type {E' : index_type} (other : span T E') :
  span_converting T E other = IllFormed.
Proof.
  unfold span_converting, is_same.
  destruct (cpp_type_eq_dec T T); [reflexivity | contradiction].
Qed.

End ConstructorLemmas.

(** The constructors establish the invariants of the data model when
    they are handed addresses: the array constructors for an array that
    exists, the pointer pair for two pointers into one array. *)
Lemma constructors_establish_invariant {impl : Implementation}
    (T : cpp_type) (E : index_type) (s : span T E) :
  (span_default T E = Ok s -> span_invariant s) /\
  (forall ptr count, 0 <= ptr -> count <= PTRDIFF_MAX ->
     span_ptr_count T E ptr count = Ok s -> span_invariant s) /\
  (forall firstElem k, 0 < firstElem -> PTRDIFF_MIN <= k <= PTRDIFF_MAX ->
     span_first_last T E firstElem (ptr_add T firstElem k) = Ok s ->
     span_invariant s) /\
  (forall N arr, 0 < arr -> N <= PTRDIFF_MAX ->
     span_array T E N arr = Ok s -> span_invariant s) /\
  (forall T' E' (other : span T' E'), span_invariant other ->
     span_converting T E other = Ok s -> span_invariant s).
Proof.
  unfold span_invariant, nullptr. split; [|split; [|split; [|split]]].
  - intros H. apply span_default_Ok in H as (-> & ->).
    pose proof PTRDIFF_MAX_nonneg. unfold nullptr. lia.
  - intros ptr count Hp Hc H. apply span_ptr_count_Ok in H.
    unfold nullptr in *. intuition lia.
  - intros firstElem k Hf Hk H. apply span_first_last_Ok in H as (-> & Hs & H0).
    rewrite distance_ptr_add in Hs by assumption. lia.
  - intros N arr Ha HN H. apply span_array_Ok in H. intuition lia.
  - intros T' E' other Hinv H. apply span_converting_Ok in H.
    destruct H as (-> & -> & _). exact Hinv.
Qed.

Lemma constructed_size_nonneg {impl : Implementation}
    (T : cpp_type) (E : index_type) (s : span T E) :
  constructed T E s -> 0 <= size s.
Proof.
  induction 1 as [T E s H|T E s H|T E p c s H|T E f l s H|T E N arr s H
                 |T E N arr s H|T E N arr s H|T E cont s H|T E cont s H
                 |T E T' E' other s H|T E other H IH].
  - apply span_default_Ok in H. lia.
  - apply span_default_Ok in H. lia.
  - apply span_ptr_count_Ok in H. lia.
  - apply span_first_last_Ok in H. lia.
  - apply span_array_Ok in H. lia.
  - apply span_array_Ok in H. lia.
  - unfold span_const_std_array in H. apply bind_Ok_inv in H as (u & _ & H).
    apply span_array_Ok in H. lia.
  - unfold span_container in H. apply bind_Ok_inv in H as (u & _ & H).
    apply bind_Ok_inv in H as (u' & _ & H).
    apply span_ptr_count_Ok in H. lia.
  - unfold span_const_container in H. apply bind_Ok_inv in H as (u & _ & H).
    apply bind_Ok_inv in H as (u' & _ & H).
    apply span_ptr_count_Ok in H. lia.
  - apply span_converting_Ok in H. lia.
  - exact IH.
Qed.

(** C10: the constructor from a first and a one-past-last pointer signals
    ContractViolation when the last pointer precedes the first, since the
    negative distance fails the check of the extent ([size >= 0] for the
    dynamic extent); and no view any constructor has built has a negative
    [size()]. *)
Theorem C10_negative_distance_rejected {impl : Implementation}
    (T : cpp_type) (firstElem lastElem : pointer) :
  (distance T firstElem lastElem < 0 ->
     extent_type_of_size dynamic_extent (distance T firstElem lastElem)
       = ContractViolation /\
     span_first_last T dynamic_extent firstElem lastElem = ContractViolation /\
     forall E, 0 <= E ->
       span_first_last T E firstElem lastElem = ContractViolation) /\
  (forall k, PTRDIFF_MIN <= k < 0 ->
     span_first_last T dynamic_extent firstElem (ptr_add T firstElem k)
       = ContractViolation) /\
  (forall E (s : span T E), constructed T E s -> 0 <= size s).
Proof.
  split; [|split].
  - intros Hd. split; [|split].
    + apply extent_type_of_size_violation. left. split; [reflexivity | assumption].
    + apply span_first_last_violation; [lia | assumption].
    + intros E HE. apply span_first_last_violation; [|assumption].
      unfold dynamic_extent. lia.
  - intros k Hk. apply span_first_last_violation; [lia|].
    rewrite distance_ptr_add; [lia|]. pose proof PTRDIFF_MAX_nonneg. lia.
  - intros E s. apply constructed_size_nonneg.
Qed.

Lemma C10_negative_distance_witness :
  span_first_last t_int dynamic_extent 4104 4096 = ContractViolation.
Proof.
  destruct (C10_negative_distance_rejected t_int 4104 4096) as (Hneg & _).
  destruct Hneg as (_ & Hv & _); [|exact Hv].
  change (distance t_int 4104 4096) with (-2). lia.
Defined.

(** ** The element-type compatibility rule *)

Lemma is_same_true_iff (a b : cpp_type) : is_same a b = true <-> a = b.
Proof.
  unfold is_same. destruct (cpp_type_eq_dec a b); split; congruence.
Qed.

Lemma is_same_refl (a : cpp_type) : is_same a a = true.
Proof. now apply is_same_true_iff. Qed.

Lemma is_same_false_iff (a b : cpp_type) : is_same a b = false <-> a <> b.
Proof.
  unfold is_same. destruct (cpp_type_eq_dec a b); split; congruence.
Qed.

Lemma remove_cv_add_const (t : cpp_type) :
  remove_cv_t (add_const_t t) = remove_cv_t t.
Proof. destruct t; reflexivity. Qed.

Lemma unqualified_not_const (t : cpp_type) :
  t = remove_cv_t t -> is_const t = false.
Proof. intros ->. destruct t; reflexivity. Qed.

Lemma add_const_differs (t : cpp_type) :
  is_const t = false -> add_const_t t <> t.
Proof. destruct t; simpl; intros -> H; discriminate. Qed.

(** The pointer cast of the converting constructor *)

Lemma qualification_kept_refl (b : bool) (t : cpp_type) :
  qualification_kept b t t = true.
Proof.
  revert b. induction t as [c v f|c v p IH|c v n]; intros b; simpl;
    rewrite ?implb_same, ?Bool.eqb_reflx, ?orb_true_r, ?IH; reflexivity.
Qed.

Lemma add_const_cast_kept (t : cpp_type) :
  t = remove_cv_t t -> casts_away_constness t (add_const_t t) = false.
Proof.
  intros Ht. unfold casts_away_constness.
  destruct t as [c v f|c v p|c v n]; simpl in *; injection Ht as -> ->;
    simpl; rewrite ?qualification_kept_refl; reflexivity.
Qed.

(** Between an integral source that is not const and any target, the
    cast is well-formed unless it drops [volatile]. *)
Lemma integral_cast_kept (From To : cpp_type) :
  is_integral From = true -> is_const From = false ->
  casts_away_constness From To
  = negb (implb (is_volatile From) (is_volatile To)).
Proof.
  intros Hi Hc. unfold casts_away_constness.
  destruct From as [c v f|c v p|c v n]; try discriminate.
  simpl in *. subst c. simpl. now rewrite !andb_true_r.
Qed.

(** A cast that compiles keeps the qualifiers of the element type. *)
Lemma cast_keeps_qualifiers (From To : cpp_type) :
  casts_away_constness From To = false ->
  (is_const From = true -> is_const To = true) /\
  (is_volatile From = true -> is_volatile To = true).
Proof.
  unfold casts_away_constness. intros H. apply negb_false_iff in H.
  destruct From as [c v f|c v p|c v n]; destruct To as [c' v' f'|c' v' p'|c' v' n'];
    simpl in *; destruct c, c', v, v'; simpl in *; try discriminate; auto.
Qed.

Section CompatibilityLemmas.
Context {impl : Implementation}.

(** Rule 1: adding [const] to an unqualified element type is allowed. *)
Lemma add_const_allowed (t : cpp_type) :
  t = remove_cv_t t ->
  details.is_allowed_element_type_conversion t (add_const_t t) = true.
Proof.
  intros Ht. unfold details.is_allowed_element_type_conversion.
  rewrite (unqualified_not_const t Ht), remove_cv_add_const, <- Ht, is_same_refl.
  simpl. destruct (is_same _ t_char); [reflexivity|].
  destruct (is_same _ t_const_char); reflexivity.
Qed.

(** Rule 3: a mutable integral type converts to an integral type of the
    same size and alignment it converts to implicitly; for the targets
    [char] and [const char] the specialisations answer instead. *)
Lemma integral_conversion_allowed (From To : cpp_type) :
  is_const From = false ->
  is_integral From = true -> is_integral To = true ->
  sizeof From = sizeof To -> alignof From = alignof To ->
  is_convertible From To = true ->
  details.is_allowed_integral_conversion From To = true /\
  details.is_allowed_element_type_conversion From To = true.
Proof.
  intros Hc Hf Ht Hs Ha Hconv.
  assert (details.is_allowed_integral_conversion From To = true) as Hint.
  { unfold details.is_allowed_integral_conversion.
    rewrite Hf, Ht, Hs, Ha, Hconv, !Z.eqb_refl. reflexivity. }
  split; [assumption|].
  unfold details.is_allowed_element_type_conversion. rewrite Hc, Hint. simpl.
  destruct (is_same To t_char); [reflexivity|].
  destruct (is_same To t_const_char); [reflexivity|].
  apply orb_true_r.
Qed.

End CompatibilityLemmas.

(** C4, as the code has it.  A view built from a fixed-size array of
    length [N] has [size() = N] and the array as [data()].  Converting it
    to a dynamic-extent view of another element type that the
    compatibility rule allows and that the constructor's pointer cast
    reaches without dropping a qualifier (the const-qualified element
    type, for one) succeeds and keeps [size()] and [data()]; the
    conversion hands the source's length to the dynamic extent, whose
    check [size >= 0] it passes (a negative length would be a violation).
    Between views of the same element type the converting constructor is
    disabled, so that conversion does not compile; a dynamic-extent view of
    the same element type is built from the array itself, the fixed extent
    widening to the dynamic one with no check, and has the same [size()]
    and [data()]. *)
Theorem C4_fixed_to_dynamic_widening {impl : Implementation}
    (T : cpp_type) (N : Z) (arr : pointer) (v : span T N) :
  span_array T N N arr = Ok v ->
  (size v = N /\ data v = arr) /\
  (forall To, To <> T ->
     details.is_allowed_element_type_conversion T To = true ->
     casts_away_constness T To = false ->
     exists d, span_converting To dynamic_extent v = Ok d /\
       size d = N /\ data d = arr) /\
  (T = remove_cv_t T ->
     exists d, span_converting (add_const_t T) dynamic_extent v = Ok d /\
       size d = N /\ data d = arr) /\
  (forall To E' (other : span T E'), To <> T ->
     details.is_allowed_element_type_conversion T To = true ->
     casts_away_constness T To = false ->
     size other < 0 ->
     span_converting To dynamic_extent other = ContractViolation) /\
  span_converting T dynamic_extent v = IllFormed /\
  (exists d, span_array T dynamic_extent N arr = Ok d /\
     size d = N /\ data d = arr) /\
  (forall Other (ext : extent_type Other),
     exists e, extent_type_of_extent dynamic_extent Other ext = Ok e /\
       extent_size dynamic_extent e = extent_size Other ext).
Proof.
  intros Hv. apply span_array_Ok in Hv as (Hd & Hs & HN & _).
  assert (forall To, To <> T ->
            details.is_allowed_element_type_conversion T To = true ->
            casts_away_constness T To = false ->
            exists d, span_converting To dynamic_extent v = Ok d /\
              size d = N /\ data d = arr) as Hconv.
  { intros To Hne Hal Hcast.
    destruct (span_converting_succeeds To dynamic_extent v Hne Hal Hcast)
      as (d & Hc & Hdd & Hds); [lia | auto |].
    exists d. rewrite Hds, Hdd. auto. }
  split; [auto|]. split; [exact Hconv|]. split; [|split; [|split; [|split]]].
  - intros HT. apply Hconv.
    + apply add_const_differs. now apply unqualified_not_const.
    + now apply add_const_allowed.
    + now apply add_const_cast_kept.
  - intros To E' other Hne Hal Hcast Hneg.
    rewrite (span_converting_enabled To dynamic_extent other Hne Hal Hcast).
    unfold storage_of_size.
    assert (extent_type_of_size dynamic_extent (size other) = ContractViolation)
      as ->; [|reflexivity].
    apply extent_type_of_size_violation. left. split; [reflexivity | assumption].
  - apply span_converting_same_type.
  - destruct (span_array_succeeds T dynamic_extent N arr HN) as (d & Hdyn & Hdd & Hds);
      [auto|]. exists d. auto.
  - intros Other ext. eexists. split; reflexivity.
Qed.

Lemma C4_fixed_to_dynamic_witness :
  exists d, span_converting t_const_int dynamic_extent example_span_5 = Ok d /\
    size d = 5 /\ data d = 4096.
Proof.
  destruct (C4_fixed_to_dynamic_widening t_int 5 4096 example_span_5 eq_refl)
    as (_ & _ & Hconst & _).
  apply (Hconst eq_refl).
Defined.

(** C4 as stated fails: the view of an array of five [int] at address
    4096 is built, and converting it to [span<int>] finds the converting
    constructor disabled, so that no view results. *)
Lemma C4_same_element_type_counterexample :
  span_array t_int 5 5 4096 = Ok example_span_5 /\
  span_converting t_int dynamic_extent example_span_5 = IllFormed /\
  ~ (exists d, span_converting t_int dynamic_extent example_span_5 = Ok d /\
       size d = 5 /\ data d = 4096).
Proof.
  split; [reflexivity|]. split; [reflexivity|].
  intros (d & Hd & _). discriminate Hd.
Qed.

(** C8, as the code has it.  For a non-const integral element type and a
    different integral element type of the same size and alignment that it
    converts to implicitly, the compatibility rule accepts the pair.  When
    the target is volatile wherever the source is, the conversion to a
    dynamic-extent view yields a view with the [data()] and the [size()] of
    the source, as does every conversion that yields a view.  When the
    source is volatile and the target is not, the constructor's
    [reinterpret_cast] casts away [volatile] and the conversion does not
    compile. *)
Theorem C8_integral_conversion_preserves {impl : Implementation}
    (From To : cpp_type) (OtherExtent : index_type)
    (other : span From OtherExtent) :
  is_const From = false ->
  is_integral From = true -> is_integral To = true -> To <> From ->
  sizeof From = sizeof To -> alignof From = alignof To ->
  is_convertible From To = true ->
  0 <= size other ->
  details.is_allowed_integral_conversion From To = true /\
  details.is_allowed_element_type_conversion From To = true /\
  ((is_volatile From = true -> is_volatile To = true) ->
     exists d, span_converting To dynamic_extent other = Ok d /\
       data d = data other /\ size d = size other) /\
  (is_volatile From = true -> is_volatile To = false ->
     forall Extent, span_converting To Extent other = IllFormed) /\
  (forall Extent (d : span To Extent),
     span_converting To Extent other = Ok d ->
     data d = data other /\ size d = size other).
Proof.
  intros Hc Hf Ht Hne Hs Ha Hconv Hsz.
  destruct (integral_conversion_allowed From To Hc Hf Ht Hs Ha Hconv)
    as (Hint & Hal).
  pose proof (integral_cast_kept From To Hf Hc) as Hcast.
  split; [assumption|]. split; [assumption|]. split; [|split].
  - intros Hvol.
    destruct (span_converting_succeeds To dynamic_extent other Hne Hal)
      as (d & Hd & Hdd & Hds); [|assumption|auto|eauto].
    rewrite Hcast. destruct (is_volatile From); [rewrite Hvol|]; reflexivity.
  - intros Hv Hv' Extent. apply span_converting_cast_ill_formed.
    rewrite Hcast, Hv, Hv'. reflexivity.
  - intros Extent d Hd. apply span_converting_Ok in Hd. tauto.
Qed.

Lemma C8_integral_conversion_witness :
  exists d, span_converting t_unsigned_int dynamic_extent example_span = Ok d /\
    data d = 4096 /\ size d = 5.
Proof.
  destruct (C8_integral_conversion_preserves t_int t_unsigned_int
              dynamic_extent example_span) as (_ & _ & Hok & _);
    [reflexivity | reflexivity | reflexivity | discriminate
    | reflexivity | reflexivity | reflexivity | change (0 <= 5); lia |].
  apply Hok. intros Hv. discriminate Hv.
Defined.

(** C8 as stated fails for a volatile source: [volatile int] is a
    non-const integral type of the size and alignment of [unsigned int]
    and converts to it implicitly, the rule accepts the pair, and
    converting the view of five [volatile int] to [span<unsigned int>]
    does not compile, so that no view results. *)
Lemma C8_volatile_source_counterexample :
  is_const t_volatile_int = false /\
  is_integral t_volatile_int = true /\ is_integral t_unsigned_int = true /\
  sizeof t_volatile_int = sizeof t_unsigned_int /\
  alignof t_volatile_int = alignof t_unsigned_int /\
  is_convertible t_volatile_int t_unsigned_int = true /\
  details.is_allowed_element_type_conversion t_volatile_int t_unsigned_int = true /\
  span_converting t_unsigned_int dynamic_extent example_volatile_span = IllFormed /\
  ~ (exists d, span_converting t_unsigned_int dynamic_extent example_volatile_span
               = Ok d /\ data d = 4096 /\ size d = 5).
Proof.
  repeat (split; [reflexivity|]).
  intros (d & Hd & _). discriminate Hd.
Qed.

(** * Further properties of the header *)

(** ** Sub-views: rejected arguments *)

Section SubviewErrors.
Context {impl : Implementation}.
Context {T : cpp_type} {E : index_type}.
Variable s : span T E.

Lemma last_violation (count : index_type) :
  count < 0 \/ size s < count -> last s count = ContractViolation.
Proof.
  intros Hc. unfold last. rewrite (range_check_false s count Hc). reflexivity.
Qed.

Lemma last_static_violation (Count : index_type) :
  dynamic_extent <= Count -> Count < 0 \/ size s < Count ->
  last_static s Count = ContractViolation.
Proof.
  intros Hwf Hc. unfold last_static.
  rewrite span_instantiated_Ok by assumption. simpl.
  rewrite (range_check_false s Count Hc). reflexivity.
Qed.

Lemma subspan_static_violation (Offset Count : index_type) :
  dynamic_extent <= Count -> 0 <= size s ->
  PTRDIFF_MIN <= Offset + Count <= PTRDIFF_MAX ->
  ~ subspan_precondition s Offset Count ->
  subspan_static s Offset Count = ContractViolation.
Proof.
  intros Hwf Hs Hr Hpre. unfold subspan_static.
  rewrite span_instantiated_Ok by assumption. simpl.
  rewrite (subspan_check_false s Offset Count Hs Hr Hpre). reflexivity.
Qed.

(** A sum one wrap above the range. *)
Lemma to_index_overflow (z : Z) :
  PTRDIFF_MAX < z <= 2 * PTRDIFF_MAX + 1 ->
  to_index z = z - 2 ^ ptrdiff_bits.
Proof.
  intros Hz. unfold to_index.
  pose proof ptrdiff_modulus as Hm. pose proof PTRDIFF_MAX_nonneg as H0.
  replace (z - PTRDIFF_MIN)
    with (z - PTRDIFF_MIN - 2 ^ ptrdiff_bits + 1 * 2 ^ ptrdiff_bits) by lia.
  rewrite Z_mod_plus_full, Z.mod_small; unfold PTRDIFF_MIN, PTRDIFF_MAX in *; lia.
Qed.

End SubviewErrors.

(** X1: [last(count)] signals ContractViolation for a negative count and
    for a count above [size()], and so does [last<Count>()] for every such
    [Count] its return type exists for. *)
Theorem X1_last_out_of_range {impl : Implementation}
    (T : cpp_type) (E : index_type) (s : span T E) (count : index_type) :
  count < 0 \/ size s < count ->
  last s count = ContractViolation /\
  (dynamic_extent <= count -> last_static s count = ContractViolation).
Proof.
  intros Hc. split.
  - now apply last_violation.
  - intros Hwf. now apply last_static_violation.
Qed.

Lemma X1_last_out_of_range_witness :
  last example_span 6 = ContractViolation /\
  last_static example_span 6 = ContractViolation.
Proof.
  destruct (X1_last_out_of_range t_int dynamic_extent example_span 6) as (Hl & Hs).
  - right. change (5 < 6). lia.
  - split; [exact Hl|]. apply Hs. unfold dynamic_extent. lia.
Defined.

(** X2: when the precondition of [subspan] fails and [offset + count] is
    an [index_type] value, [subspan(offset, count)] signals
    ContractViolation, and so does [subspan<offset, count>()] where its
    return type exists. *)
Theorem X2_subspan_out_of_range {impl : Implementation}
    (T : cpp_type) (E : index_type) (s : span T E) (offset count : index_type) :
  0 <= size s ->
  PTRDIFF_MIN <= offset + count <= PTRDIFF_MAX ->
  ~ subspan_precondition s offset count ->
  subspan s offset count = ContractViolation /\
  (dynamic_extent <= count ->
     subspan_static s offset count = ContractViolation).
Proof.
  intros Hs Hr Hpre. split.
  - now apply subspan_violation.
  - intros Hwf. now apply subspan_static_violation.
Qed.

Lemma X2_subspan_out_of_range_witness :
  subspan example_span 0 6 = ContractViolation /\
  subspan example_span 3 3 = ContractViolation.
Proof.
  split.
  - apply (X2_subspan_out_of_range t_int dynamic_extent example_span 0 6).
    + change (0 <= 5). lia.
    + change (- 2 ^ 63 <= 0 + 6 <= 2 ^ 63 - 1). lia.
    + unfold subspan_precondition. change (size example_span) with 5.
      unfold dynamic_extent. lia.
  - apply (X2_subspan_out_of_range t_int dynamic_extent example_span 3 3).
    + change (0 <= 5). lia.
    + change (- 2 ^ 63 <= 3 + 3 <= 2 ^ 63 - 1). lia.
    + unfold subspan_precondition. change (size example_span) with 5.
      unfold dynamic_extent. lia.
Defined.

(** X3: the check of [subspan] compares the sum [offset + count] as an
    [index_type].  With the sum wrapping in two's complement, a count
    above [PTRDIFF_MAX - offset] at a positive offset passes the check on a
    non-empty view: the view returned has that count as [size()] and
    reaches past the end of the source. *)
Theorem X3_subspan_count_wraps {impl : Implementation}
    (T : cpp_type) (E : index_type) (s : span T E) (offset count : index_type) :
  span_invariant s ->
  0 < offset <= size s ->
  PTRDIFF_MAX - offset < count <= PTRDIFF_MAX ->
  ~ subspan_precondition s offset count /\
  exists r, subspan s offset count = Ok r /\
    data r = ptr_add T (data s) offset /\ size r = count /\
    size s < offset + size r /\ ~ within r s.
Proof.
  intros (Hsz & Hd & Hnull) Ho Hc.
  pose proof ptrdiff_modulus as Hm. pose proof PTRDIFF_MAX_nonneg as H0.
  split.
  { unfold subspan_precondition, dynamic_extent. lia. }
  assert (index_add offset count <= size s) as Hsum.
  { unfold index_add. rewrite to_index_overflow by lia.
    unfold PTRDIFF_MAX in *. lia. }
  assert (count <> dynamic_extent) as Hdyn by (unfold dynamic_extent; lia).
  assert (ptr_add T (data s) offset <> nullptr) as Hp.
  { unfold ptr_add, nullptr in *. pose proof (sizeof_pos T). nia. }
  destruct (span_ptr_count_succeeds T dynamic_extent
              (ptr_add T (data s) offset) count) as (r & Hr & Hdr & Hsr);
    [lia | contradiction | auto |].
  exists r. split.
  - unfold subspan.
    replace (count =? dynamic_extent) with false by (symmetry; now apply Z.eqb_neq).
    rewrite Expects_true; [exact Hr|].
    apply andb_true_intro; split.
    + apply orb_true_iff. right. apply andb_true_intro; split; lia.
    + simpl. apply andb_true_intro; split; lia.
  - split; [exact Hdr|]. split; [exact Hsr|]. split; [lia|].
    intros (_ & Hw). rewrite Hdr, Hsr, ptr_add_add in Hw.
    unfold ptr_add in Hw. pose proof (sizeof_pos T). nia.
Qed.

Lemma X3_subspan_count_wraps_witness :
  exists r, subspan example_span 1 (2 ^ 63 - 1) = Ok r /\
    size r = 2 ^ 63 - 1.
Proof.
  destruct (X3_subspan_count_wraps t_int dynamic_extent example_span
              1 (2 ^ 63 - 1) example_span_invariant)
    as (_ & r & Hr & _ & Hs & _).
  - change (0 < 1 <= 5). lia.
  - change (2 ^ 63 - 1 - 1 < 2 ^ 63 - 1 <= 2 ^ 63 - 1). lia.
  - exists r. auto.
Defined.

(** ** Sub-views: how the forms relate and compose *)

(** X4: for every count that is not the [dynamic_extent] sentinel,
    [first(count)] is [subspan(0, count)], success or violation alike; for
    the sentinel [first] signals ContractViolation where [subspan(0)]
    returns the whole view. *)
Theorem X4_first_is_subspan_from_0 {impl : Implementation}
    (T : cpp_type) (E : index_type) (s : span T E) (count : index_type) :
  (PTRDIFF_MIN <= count <= PTRDIFF_MAX -> count <> dynamic_extent ->
     first s count = subspan s 0 count) /\
  (span_invariant s ->
     first s dynamic_extent = ContractViolation /\
     exists r, subspan s 0 dynamic_extent = Ok r /\
       data r = data s /\ size r = size s).
Proof.
  split.
  - intros Hr Hd. unfold first, subspan.
    rewrite ptr_add_0, index_add_id by (simpl; lia).
    replace (count =? dynamic_extent) with false by (symmetry; now apply Z.eqb_neq).
    reflexivity.
  - intros Hinv. pose proof Hinv as (Hsz & _). split.
    + apply first_violation. unfold dynamic_extent. lia.
    + destruct (subspan_succeeds s 0 dynamic_extent Hinv) as (r & Hr & Hd & Hs).
      * split; [lia | auto].
      * exists r. rewrite ptr_add_0 in Hd. simpl in Hs.
        split; [assumption|]. split; [assumption | lia].
Qed.

Lemma X4_first_is_subspan_witness :
  first example_span 2 = subspan example_span 0 2.
Proof.
  destruct (X4_first_is_subspan_from_0 t_int dynamic_extent example_span 2)
    as (Heq & _).
  apply Heq.
  - change (- 2 ^ 63 <= 2 <= 2 ^ 63 - 1). lia.
  - unfold dynamic_extent. lia.
Defined.

(** X5: for [0 < count <= size()], [last(count)] is
    [subspan(size() - count, count)].  For count 0 on a non-empty view the
    two differ: both are empty, but [last(0)] keeps [data()] where
    [subspan(size(), 0)] points one past the last element. *)
Theorem X5_last_is_subspan_to_end {impl : Implementation}
    (T : cpp_type) (E : index_type) (s : span T E) (count : index_type) :
  span_invariant s ->
  (0 < count <= size s ->
     last s count = subspan s (size s - count) count) /\
  (0 < size s ->
     exists r1 r2, last s 0 = Ok r1 /\ subspan s (size s) 0 = Ok r2 /\
       size r1 = 0 /\ size r2 = 0 /\
       data r1 = data s /\ data r2 = ptr_add T (data s) (size s) /\
       data r1 <> data r2).
Proof.
  intros Hinv. pose proof Hinv as (Hsz & _). pose proof PTRDIFF_MIN_MAX as Hmin.
  split.
  - intros Hc. unfold last, subspan.
    rewrite index_sub_id by lia.
    replace (size s - count + count) with (size s) by lia.
    unfold index_add. replace (size s - count + count) with (size s) by lia.
    rewrite to_index_id by lia.
    replace (count =? 0) with false by (symmetry; apply Z.eqb_neq; lia).
    replace (count =? dynamic_extent) with false
      by (symmetry; apply Z.eqb_neq; unfold dynamic_extent; lia).
    replace (count >=? 0) with true by lia.
    replace (count <=? size s) with true by lia.
    replace (size s <=? size s) with true by lia.
    replace (size s - count <=? size s) with true by lia.
    destruct (Z.eqb_spec (size s - count) 0) as [Hz|Hz]; simpl.
    + reflexivity.
    + replace (size s - count >? 0) with true by lia. reflexivity.
  - intros Hpos.
    destruct (last_succeeds s 0 Hinv) as (r1 & Hr1 & Hs1 & Hd1); [lia|].
    destruct (subspan_succeeds s (size s) 0 Hinv) as (r2 & Hr2 & Hd2 & Hs2).
    { split; [lia|]. right. lia. }
    simpl in Hd1, Hs2. exists r1, r2. repeat split; try assumption.
    rewrite Hd1, Hd2. unfold ptr_add. pose proof (sizeof_pos T). nia.
Qed.

Lemma X5_last_is_subspan_witness :
  last example_span 2 = subspan example_span 3 2.
Proof.
  destruct (X5_last_is_subspan_to_end t_int dynamic_extent example_span 2
              example_span_invariant) as (Heq & _).
  apply Heq. change (0 < 2 <= 5). lia.
Defined.

(** X6: taking a prefix of a prefix is taking the shorter prefix, and
    taking a non-empty suffix of a suffix is taking the shorter suffix:
    for [b <= a <= size()], [first(a).first(b)] is [first(b)] and, when
    [0 < b], [last(a).last(b)] is [last(b)]. *)
Theorem X6_prefix_and_suffix_compose {impl : Implementation}
    (T : cpp_type) (E : index_type) (s : span T E) (a b : index_type) :
  span_invariant s -> b <= a <= size s ->
  (0 <= b -> (r <- first s a ;; first r b) = first s b) /\
  (0 < b -> (r <- last s a ;; last r b) = last s b).
Proof.
  intros Hinv Hab. pose proof Hinv as (Hsz & _).
  pose proof PTRDIFF_MIN_MAX as Hmin. split; intros Hb.
  - destruct (first_succeeds s a Hinv) as (r & Hr & Hd & Hs); [lia|].
    rewrite Hr. simpl. unfold first. rewrite Hd, Hs.
    replace (b >=? 0) with true by lia.
    replace (b <=? a) with true by lia.
    replace (b <=? size s) with true by lia. reflexivity.
  - destruct (last_succeeds s a Hinv) as (r & Hr & Hs & Hd); [lia|].
    rewrite Hr. simpl. unfold last. rewrite Hd, Hs.
    rewrite !index_sub_id by lia.
    replace (a =? 0) with false by (symmetry; apply Z.eqb_neq; lia).
    replace (b =? 0) with false by (symmetry; apply Z.eqb_neq; lia).
    replace (b >=? 0) with true by lia.
    replace (b <=? a) with true by lia.
    replace (b <=? size s) with true by lia.
    rewrite ptr_add_add. replace (size s - a + (a - b)) with (size s - b) by lia.
    reflexivity.
Qed.

Lemma X6_prefix_and_suffix_witness :
  (r <- first example_span 4 ;; first r 2) = first example_span 2 /\
  (r <- last example_span 4 ;; last r 2) = last example_span 2.
Proof.
  destruct (X6_prefix_and_suffix_compose t_int dynamic_extent example_span 4 2
              example_span_invariant) as (Hf & Hl).
  - change (2 <= 4 <= 5). lia.
  - split; [apply Hf | apply Hl]; lia.
Defined.

(** X7: dropping [o1] elements and then taking [subspan(o2, c)] of the
    rest is [subspan(o1 + o2, c)] of the source, whenever the second step
    meets its precondition. *)
Theorem X7_subspan_composes {impl : Implementation}
    (T : cpp_type) (E : index_type) (s : span T E) (o1 o2 c : index_type) :
  span_invariant s -> 0 <= o1 <= size s -> 0 <= o2 <= size s - o1 ->
  c = dynamic_extent \/ (0 <= c /\ o2 + c <= size s - o1) ->
  (r <- subspan s o1 dynamic_extent ;; subspan r o2 c) = subspan s (o1 + o2) c.
Proof.
  intros Hinv Ho1 Ho2 Hc. pose proof Hinv as (Hsz & _).
  pose proof PTRDIFF_MIN_MAX as Hmin.
  destruct (subspan_succeeds s o1 dynamic_extent Hinv) as (r & Hr & Hd & Hs).
  { split; [assumption | auto]. }
  simpl in Hs. rewrite Hr. simpl. unfold subspan.
  rewrite (subspan_check_true r o2 c)
    by (rewrite ?Hs; unfold subspan_precondition; rewrite ?Hs; lia).
  rewrite (subspan_check_true s (o1 + o2) c)
    by (unfold subspan_precondition; lia).
  simpl. rewrite Hd, Hs, ptr_add_add.
  rewrite !index_sub_id by lia.
  replace (size s - o1 - o2) with (size s - (o1 + o2)) by lia. reflexivity.
Qed.

Lemma X7_subspan_composes_witness :
  (r <- subspan example_span 1 dynamic_extent ;; subspan r 1 2)
  = subspan example_span 2 2.
Proof.
  apply (X7_subspan_composes t_int dynamic_extent example_span 1 1 2
           example_span_invariant).
  - change (0 <= 1 <= 5). lia.
  - change (0 <= 1 <= 5 - 1). lia.
  - right. change (0 <= 2 /\ 1 + 2 <= 5 - 1). lia.
Defined.

(** X8: a sub-view refers to the elements of the source and copies
    nothing: element [i] of [subspan(offset, count)] is element
    [offset + i] of the source, the same reference; and an index from the
    sub-view's size on is a violation on the sub-view even where
    [offset + i] is an element of the source. *)
Theorem X8_subspan_element_access {impl : Implementation}
    (T : cpp_type) (E : index_type) (s : span T E) (offset count : index_type) :
  span_invariant s -> subspan_precondition s offset count ->
  exists r, subspan s offset count = Ok r /\
    (forall i, 0 <= i < size r ->
       operator_subscript r i = operator_subscript s (offset + i) /\
       exists p, operator_subscript r i = Ok p) /\
    (forall i, size r <= i -> operator_subscript r i = ContractViolation).
Proof.
  intros Hinv Hpre. pose proof Hpre as (Ho & Hc).
  destruct (subspan_succeeds s offset count Hinv Hpre) as (r & Hr & Hd & Hs).
  assert (offset + size r <= size s) as Hle
    by (rewrite Hs; destruct (Z.eqb_spec count dynamic_extent); lia).
  exists r. split; [assumption|]. split.
  - intros i Hi.
    rewrite (operator_subscript_in_range r i Hi).
    rewrite (operator_subscript_in_range s (offset + i)) by lia.
    rewrite Hd, ptr_add_add. split; [reflexivity | eauto].
  - intros i Hi. apply operator_subscript_out_of_range. lia.
Qed.

Lemma X8_subspan_element_access_witness :
  exists r, subspan example_span 1 3 = Ok r /\
    operator_subscript r 2 = operator_subscript example_span 3 /\
    operator_subscript r 3 = ContractViolation.
Proof.
  destruct (X8_subspan_element_access t_int dynamic_extent example_span 1 3
              example_span_invariant) as (r & Hr & Hin & Hout).
  - unfold subspan_precondition. change (size example_span) with 5.
    unfold dynamic_extent. lia.
  - assert (size r = 3) as Hs by (injection Hr as <-; reflexivity).
    exists r. split; [assumption|]. split.
    + apply (Hin 2). rewrite Hs. lia.
    + apply Hout. rewrite Hs. lia.
Defined.

(** ** Constructors *)

(** A container like [std::vector<int>] holding the five elements of the
    example buffer. *)
Definition example_container : Container :=
  {| Container_pointer := Pointer false false t_int;
     Container_data_type := Pointer false false t_int;
     Container_const_data_type := Pointer false false t_const_int;
     Container_data := 4096;
     Container_size := 5 |}.

(** The same container as a [const std::vector<int>]: [data()] returns
    [const int*]. *)
Definition example_const_container : Container :=
  {| Container_pointer := Pointer false false t_int;
     Container_data_type := Pointer false false t_const_int;
     Container_const_data_type := Pointer false false t_const_int;
     Container_data := 4096;
     Container_size := 5 |}.

Section MoreConstructorLemmas.
Context {impl : Implementation}.

Lemma to_index_range (z : Z) : PTRDIFF_MIN <= to_index z <= PTRDIFF_MAX.
Proof.
  unfold to_index. pose proof ptrdiff_modulus as Hm.
  pose proof PTRDIFF_MAX_nonneg as H0.
  assert (0 <= (z - PTRDIFF_MIN) mod 2 ^ ptrdiff_bits < 2 ^ ptrdiff_bits)
    by (apply Z.mod_pos_bound; unfold PTRDIFF_MAX in *; lia).
  unfold PTRDIFF_MIN, PTRDIFF_MAX in *. lia.
Qed.

Lemma extent_type_default_no_violation (N : index_type) :
  extent_type_default N <> ContractViolation.
Proof.
  unfold extent_type_default, extent_type.
  destruct (Z.eqb_spec N dynamic_extent); [discriminate|].
  destruct (N >=? 0); simpl; discriminate.
Qed.

Lemma extent_type_of_extent_no_violation (E Other : index_type)
    (ext : extent_type Other) :
  extent_type_of_extent E Other ext <> ContractViolation.
Proof.
  unfold extent_type_of_extent. generalize (extent_size Other ext) as n.
  intros n. unfold extent_type.
  destruct (Z.eqb_spec E dynamic_extent); [discriminate|].
  destruct (E >=? 0); simpl; [|discriminate].
  destruct (Other =? E); simpl; discriminate.
Qed.

Lemma span_array_no_violation (T : cpp_type) (E N : index_type) (arr : pointer) :
  span_array T E N arr <> ContractViolation.
Proof.
  unfold span_array, storage_of_extent.
  pose proof (extent_type_default_no_violation N) as Hd.
  destruct (extent_type_default N) as [ext| |]; simpl;
    [|contradiction|discriminate].
  pose proof (extent_type_of_extent_no_violation E N ext) as He.
  destruct (extent_type_of_extent E N ext) as [e| |]; simpl;
    [discriminate|contradiction|discriminate].
Qed.

Lemma span_array_Ok_iff (T : cpp_type) (E N : index_type) (arr : pointer) :
  (exists s, span_array T E N arr = Ok s) <->
  0 <= N /\ (E = dynamic_extent \/ E = N).
Proof.
  split.
  - intros (s & Hs). apply span_array_Ok in Hs. tauto.
  - intros (HN & HE). destruct (span_array_succeeds T E N arr HN HE) as (s & Hs & _).
    eauto.
Qed.

End MoreConstructorLemmas.

(** X9: building a view from a fixed-size array (or a [std::array]) of
    [N] elements never signals ContractViolation.  It yields a view
    exactly when the extent is dynamic or is [N], with [size() = N] and
    [data()] the array; for any other fixed extent the construction is
    rejected when compiled.  From a [const std::array] it is accepted
    only for a const element type. *)
Theorem X9_array_constructor {impl : Implementation}
    (T : cpp_type) (E N : index_type) (arr : pointer) :
  span_array T E N arr <> ContractViolation /\
  ((exists s, span_array T E N arr = Ok s) <->
     0 <= N /\ (E = dynamic_extent \/ E = N)) /\
  (forall s, span_array T E N arr = Ok s -> size s = N /\ data s = arr) /\
  (0 <= N -> E <> dynamic_extent -> E <> N ->
     span_array T E N arr = IllFormed) /\
  span_std_array T E N arr = span_array T E N arr /\
  (is_const T = true ->
     span_const_std_array T E N arr = span_array T E N arr) /\
  (is_const T = false -> span_const_std_array T E N arr = IllFormed).
Proof.
  split; [apply span_array_no_violation|].
  split; [apply span_array_Ok_iff|].
  split; [|split; [|split; [|split]]].
  - intros s Hs. apply span_array_Ok in Hs. tauto.
  - intros HN Hd Hne.
    pose proof (span_array_no_violation T E N arr) as Hv.
    destruct (span_array T E N arr) as [s| |] eqn:Hs;
      [|contradiction|reflexivity].
    apply span_array_Ok in Hs. lia.
  - reflexivity.
  - intros Hc. unfold span_const_std_array. rewrite Hc. reflexivity.
  - intros Hc. unfold span_const_std_array. rewrite Hc. reflexivity.
Qed.

Lemma X9_array_constructor_witness :
  span_array t_int 3 5 4096 = IllFormed /\
  span_const_std_array t_int 5 5 4096 = IllFormed.
Proof.
  destruct (X9_array_constructor t_int 3 5 4096) as (_ & _ & _ & Hill & _).
  destruct (X9_array_constructor t_int 5 5 4096) as (_ & _ & _ & _ & _ & _ & Hc).
  split.
  - apply Hill; unfold dynamic_extent; lia.
  - apply Hc. reflexivity.
Defined.

(** X10: the default constructor and the constructor from [nullptr]
    exist for the dynamic extent and for extent 0 only, and never signal
    ContractViolation.  The view they yield has a null [data()], size 0,
    is [empty()], has no elements, and every index is a violation on
    it. *)
Theorem X10_default_constructor {impl : Implementation}
    (T : cpp_type) (E : index_type) :
  ((exists s, span_default T E = Ok s) <-> E = dynamic_extent \/ E = 0) /\
  (E <> dynamic_extent -> E <> 0 -> span_default T E = IllFormed) /\
  span_nullptr T E = span_default T E /\
  (forall s, span_default T E = Ok s ->
     data s = nullptr /\ size s = 0 /\ empty s = true /\
     (forall i, operator_subscript s i = ContractViolation) /\
     (forall (V : Type) (m : memory V), elements m s = [])).
Proof.
  assert (forall s, span_default T E = Ok s -> E = dynamic_extent \/ E = 0) as Hext.
  { intros s H. unfold span_default in H.
    apply bind_Ok_inv in H as (ext & _ & H).
    apply bind_Ok_inv in H as (st & Hst & _).
    apply storage_of_extent_Ok in Hst. lia. }
  assert (E = dynamic_extent \/ E = 0 -> exists s, span_default T E = Ok s) as Hsucc.
  { intros HE. destruct (extent_type_default_succeeds 0) as (ext & Hx); [lia|].
    destruct (extent_type_of_extent_succeeds E 0 ext) as (e & He); [lia|].
    exists {| storage_ := {| extent_base := e; data_ := nullptr |} |}.
    unfold span_default, storage_of_extent. rewrite Hx. simpl. rewrite He.
    reflexivity. }
  split; [|split; [|split]].
  - split; [intros (s & Hs); eauto | exact Hsucc].
  - intros Hd H0. unfold span_default, storage_of_extent.
    destruct (extent_type_default 0) as [ext| |] eqn:Hx.
    + simpl. pose proof (extent_type_of_extent_no_violation E 0 ext) as Hv.
      destruct (extent_type_of_extent E 0 ext) as [e| |] eqn:He;
        [|contradiction|reflexivity].
      apply extent_type_of_extent_Ok in He. lia.
    + now apply extent_type_default_no_violation in Hx.
    + reflexivity.
  - reflexivity.
  - intros s Hs. apply span_default_Ok in Hs as (Hd & Hz).
    split; [assumption|]. split; [assumption|]. split; [|split].
    + unfold empty. rewrite Hz. reflexivity.
    + intros i. apply operator_subscript_out_of_range. lia.
    + intros V m. unfold elements. rewrite Hz. reflexivity.
Qed.

Lemma X10_default_constructor_witness :
  span_default t_int 5 = IllFormed.
Proof.
  destruct (X10_default_constructor t_int 5) as (_ & Hill & _).
  apply Hill; unfold dynamic_extent; lia.
Defined.

(** X11: for a first pointer that is not null, the constructor from the
    pointers [first] and [first + n] is the constructor from [first] and
    the count [n], with the same view or the same violation; so it yields
    [data() = first] and [size() = n] for every [n >= 0] of a
    dynamic-extent view. *)
Theorem X11_pointer_pair_is_pointer_count {impl : Implementation}
    (T : cpp_type) (E : index_type) (firstElem : pointer) (n : index_type) :
  firstElem <> nullptr -> PTRDIFF_MIN <= n <= PTRDIFF_MAX ->
  span_first_last T E firstElem (ptr_add T firstElem n)
  = span_ptr_count T E firstElem n /\
  (0 <= n ->
     exists s, span_first_last T dynamic_extent firstElem (ptr_add T firstElem n)
               = Ok s /\ data s = firstElem /\ size s = n).
Proof.
  intros Hp Hn.
  assert (forall E', span_first_last T E' firstElem (ptr_add T firstElem n)
                     = span_ptr_count T E' firstElem n) as Heq.
  { intros E'. unfold span_first_last, span_ptr_count.
    rewrite distance_ptr_add by assumption.
    destruct (storage_of_size E' firstElem n) as [st| |] eqn:Hst; try reflexivity.
    apply storage_of_size_Ok in Hst. simpl.
    rewrite ptr_check_true; [reflexivity | lia | contradiction]. }
  split; [apply Heq|].
  intros H0. rewrite Heq.
  apply span_ptr_count_succeeds; [assumption | contradiction | auto].
Qed.

Lemma X11_pointer_pair_witness :
  span_first_last t_int dynamic_extent 4096 4116 = Ok example_span.
Proof.
  destruct (X11_pointer_pair_is_pointer_count t_int dynamic_extent 4096 5)
    as (Heq & _).
  - unfold nullptr. lia.
  - change (- 2 ^ 63 <= 5 <= 2 ^ 63 - 1). lia.
  - change (ptr_add t_int 4096 5) with 4116 in Heq. rewrite Heq. reflexivity.
Defined.

(** X12: narrowing to a fixed extent [E] is checked when the view is
    built.  Converting a view to a fixed-extent view of a compatible
    element type that the pointer cast reaches without dropping a
    qualifier yields a view exactly when the source's [size()] is [E] and
    signals ContractViolation exactly otherwise; the constructor from two
    pointers does the same with their distance. *)
Theorem X12_narrowing_to_fixed_extent {impl : Implementation}
    (From To : cpp_type) (E' E : index_type) (other : span From E')
    (firstElem lastElem : pointer) :
  To <> From -> details.is_allowed_element_type_conversion From To = true ->
  casts_away_constness From To = false ->
  0 <= E ->
  (span_converting To E other = ContractViolation <-> size other <> E) /\
  ((exists d, span_converting To E other = Ok d /\
      data d = data other /\ size d = E) <-> size other = E) /\
  (span_first_last To E firstElem lastElem = ContractViolation <->
     distance To firstElem lastElem <> E) /\
  ((exists d, span_first_last To E firstElem lastElem = Ok d /\
      data d = firstElem /\ size d = E) <-> distance To firstElem lastElem = E).
Proof.
  intros Hne Hal Hcast HE.
  assert (forall p n,
            (storage_of_size E p n = ContractViolation <-> n <> E) /\
            ((exists st, storage_of_size E p n = Ok st) <-> n = E)) as Hst.
  { intros p n. unfold storage_of_size. split; split.
    - intros H. destruct (extent_type_of_size E n) as [e| |] eqn:He;
        try discriminate.
      apply extent_type_of_size_violation in He. lia.
    - intros Hn.
      assert (extent_type_of_size E n = ContractViolation) as ->;
        [|reflexivity].
      apply extent_type_of_size_violation. right. lia.
    - intros (st & H). apply bind_Ok_inv in H as (e & He & _).
      apply extent_type_of_size_Ok in He. unfold dynamic_extent in *. lia.
    - intros ->.
      destruct (extent_type_of_size_succeeds E E) as (e & He); [lia | auto |].
      rewrite He. simpl. eauto. }
  assert (span_converting To E other
          = (st <- storage_of_size E (data other) (size other) ;;
             Ok {| storage_ := st |})) as Hconv.
  { now apply span_converting_enabled. }
  split; [|split; [|split]].
  - rewrite Hconv, <- (proj1 (Hst (data other) (size other))).
    destruct (storage_of_size E (data other) (size other)); simpl;
      split; intros H; congruence.
  - split.
    + intros (d & Hd & _). apply span_converting_Ok in Hd.
      unfold dynamic_extent in *. lia.
    + intros Hs.
      destruct (span_converting_succeeds To E other Hne Hal Hcast)
        as (d & Hd & Hdd & Hds); [lia | auto |].
      exists d. split; [assumption|]. split; [assumption | lia].
  - unfold span_first_last.
    rewrite <- (proj1 (Hst firstElem (distance To firstElem lastElem))).
    destruct (storage_of_size E firstElem _); simpl; split; intros H; congruence.
  - split.
    + intros (d & Hd & _ & Hs). apply span_first_last_Ok in Hd. lia.
    + intros Hs. unfold span_first_last.
      destruct (proj2 (proj2 (Hst firstElem (distance To firstElem lastElem))) Hs)
        as (st & Hst').
      rewrite Hst'. simpl. eexists. split; [reflexivity|].
      apply storage_of_size_Ok in Hst'. unfold data, size. simpl.
      split; [tauto | lia].
Qed.

Lemma X12_narrowing_witness :
  span_converting t_const_int 3 example_span = ContractViolation /\
  (exists d, span_converting t_const_int 5 example_span = Ok d /\
     data d = 4096 /\ size d = 5).
Proof.
  assert (t_const_int <> t_int) as Hne by discriminate.
  destruct (X12_narrowing_to_fixed_extent t_int t_const_int dynamic_extent 3
              example_span 0 0 Hne eq_refl eq_refl) as ((_ & Hv) & _); [lia|].
  destruct (X12_narrowing_to_fixed_extent t_int t_const_int dynamic_extent 5
              example_span 0 0 Hne eq_refl eq_refl) as (_ & (_ & Hok) & _); [lia|].
  split.
  - apply Hv. change (5 <> 3). lia.
  - apply Hok. reflexivity.
Defined.

(** X16: the constructor from a container is the constructor from its
    [data()] and [size()] when the container's pointer type converts to the
    view's and to what [data()] returns, and what [data()] returns converts
    to the view's pointer type; where the first fails the constructor does
    not exist, where the last fails the delegated call does not compile.
    From a const container the same holds for a const element type, with
    [data()] of the const container, and the constructor does not exist
    for another element type.  The [size_t] count is converted to
    [index_type]: a size above [PTRDIFF_MAX] arrives as a negative count and
    signals ContractViolation. *)
Theorem X16_container_constructor {impl : Implementation}
    (T : cpp_type) (E : index_type) (cont : Container) :
  let accepted :=
    is_convertible (Container_pointer cont) (Pointer false false T) &&
    is_convertible (Container_pointer cont) (Container_data_type cont) in
  let data_converts :=
    is_convertible (Container_data_type cont) (Pointer false false T) in
  let const_data_converts :=
    is_convertible (Container_const_data_type cont) (Pointer false false T) in
  (accepted = true -> data_converts = true ->
   0 <= Container_size cont <= PTRDIFF_MAX ->
     span_container T E cont
     = span_ptr_count T E (Container_data cont) (Container_size cont)) /\
  (accepted = true -> data_converts = true -> dynamic_extent <= E ->
   PTRDIFF_MAX < Container_size cont < 2 ^ ptrdiff_bits ->
     span_container T E cont = ContractViolation) /\
  (accepted = false \/ data_converts = false ->
     span_container T E cont = IllFormed) /\
  (is_const T = true -> accepted = true -> const_data_converts = true ->
   0 <= Container_size cont <= PTRDIFF_MAX ->
     span_const_container T E cont
     = span_ptr_count T E (Container_data cont) (Container_size cont)) /\
  (is_const T = false \/ accepted = false \/ const_data_converts = false ->
     span_const_container T E cont = IllFormed).
Proof.
  intros accepted data_converts const_data_converts.
  subst accepted data_converts const_data_converts.
  pose proof PTRDIFF_MIN_MAX as Hmin. pose proof ptrdiff_modulus as Hm.
  split; [|split; [|split; [|split]]].
  - intros Ha Hd Hs. unfold span_container, argument_converts.
    rewrite Ha, Hd. simpl. rewrite to_index_id by lia. reflexivity.
  - intros Ha Hd HE Hs. unfold span_container, argument_converts.
    rewrite Ha, Hd. simpl.
    apply span_ptr_count_violation. split; [assumption|]. left.
    rewrite to_index_overflow; unfold PTRDIFF_MAX in *; lia.
  - intros [Ha|Hd]; unfold span_container, argument_converts.
    + rewrite Ha. reflexivity.
    + rewrite Hd. unfold enable_if_t. destruct (_ && _); reflexivity.
  - intros Hc Ha Hd Hs. unfold span_const_container, argument_converts.
    rewrite Hc, Hd. simpl. rewrite Ha. simpl.
    rewrite to_index_id by lia. reflexivity.
  - intros [Hc|[Ha|Hd]]; unfold span_const_container, argument_converts.
    + rewrite Hc. reflexivity.
    + rewrite <- andb_assoc, Ha, andb_false_r. reflexivity.
    + rewrite Hd. unfold enable_if_t. destruct (_ && _); reflexivity.
Qed.

Lemma X16_container_constructor_witness :
  span_container t_int dynamic_extent example_container = Ok example_span /\
  span_container t_int dynamic_extent example_const_container = IllFormed /\
  span_const_container t_int dynamic_extent example_container = IllFormed.
Proof.
  destruct (X16_container_constructor t_int dynamic_extent example_container)
    as (Heq & _ & _ & _ & Hc).
  destruct (X16_container_constructor t_int dynamic_extent example_const_container)
    as (_ & _ & Hill & _).
  split; [|split].
  - rewrite Heq; [reflexivity | reflexivity | reflexivity |].
    change (0 <= 5 <= 2 ^ 63 - 1). lia.
  - apply Hill. right. reflexivity.
  - apply Hc. left. reflexivity.
Defined.

(** X17: the constructors establish the invariants of the data model (a
    size between 0 and [PTRDIFF_MAX], and a null pointer only with size 0)
    whenever they are handed addresses: the default constructor, the
    pointer and count constructor, the pointer pair into one array, the
    array and container constructors, and the conversion from a view that
    has them. *)
Theorem X17_constructors_establish_invariants {impl : Implementation}
    (T : cpp_type) (E : index_type) (s : span T E) :
  (span_default T E = Ok s -> span_invariant s) /\
  (forall ptr count, 0 <= ptr -> count <= PTRDIFF_MAX ->
     span_ptr_count T E ptr count = Ok s -> span_invariant s) /\
  (forall firstElem k, 0 < firstElem -> PTRDIFF_MIN <= k <= PTRDIFF_MAX ->
     span_first_last T E firstElem (ptr_add T firstElem k) = Ok s ->
     span_invariant s) /\
  (forall N arr, 0 < arr -> N <= PTRDIFF_MAX ->
     span_array T E N arr = Ok s -> span_invariant s) /\
  (forall cont, 0 <= Container_data cont ->
     span_container T E cont = Ok s -> span_invariant s) /\
  (forall T' E' (other : span T' E'), span_invariant other ->
     span_converting T E other = Ok s -> span_invariant s).
Proof.
  destruct (constructors_establish_invariant T E s) as (Hd & Hpc & Hfl & Har & Hcv).
  split; [exact Hd|]. split; [exact Hpc|]. split; [exact Hfl|].
  split; [exact Har|]. split; [|exact Hcv].
  intros cont Hp H. unfold span_container in H.
  apply bind_Ok_inv in H as (u & _ & H).
  apply bind_Ok_inv in H as (u' & _ & H).
  apply (Hpc _ _ Hp) in H; [assumption|]. apply to_index_range.
Qed.

Lemma X17_constructors_witness : span_invariant example_span.
Proof.
  destruct (X17_constructors_establish_invariants t_int dynamic_extent example_span)
    as (_ & Hpc & _).
  apply (Hpc 4096 5).
  - lia.
  - change (5 <= 2 ^ 63 - 1). lia.
  - reflexivity.
Defined.

(** X18: every view a sub-view operation returns, in the runtime or the
    compile-time form, has the invariants of the data model when the
    source has them (the count being an [index_type] value). *)
Theorem X18_subviews_keep_invariants {impl : Implementation}
    (T : cpp_type) (E : index_type) (s : span T E) (offset count : index_type) :
  span_invariant s -> count <= PTRDIFF_MAX ->
  (forall r, first s count = Ok r -> span_invariant r) /\
  (forall r, first_static s count = Ok r -> span_invariant r) /\
  (forall r, last s count = Ok r -> span_invariant r) /\
  (forall r, last_static s count = Ok r -> span_invariant r) /\
  (forall r, subspan s offset count = Ok r -> span_invariant r) /\
  (forall r, subspan_static s offset count = Ok r -> span_invariant r).
Proof.
  intros (Hsz & Hd & Hnull) Hc.
  assert (forall E' p n (r : span T E'),
            0 <= p -> n <= PTRDIFF_MAX ->
            span_ptr_count T E' p n = Ok r -> span_invariant r) as Hpc.
  { intros E' p n r. apply span_ptr_count_invariant. }
  assert (forall k, 0 <= k -> 0 <= ptr_add T (data s) k) as Hadd.
  { intros k Hk. pose proof (ptr_add_nonneg (T := T) (data s) k Hk). lia. }
  assert (forall o c : index_type,
            (if c =? dynamic_extent then index_sub (size s) o else c)
            <= PTRDIFF_MAX \/ PTRDIFF_MAX < c) as Hcnt.
  { intros o c. destruct (c =? dynamic_extent); [|lia].
    left. apply to_index_range. }
  split; [|split; [|split; [|split; [|split]]]].
  - intros r H. unfold first in H. apply bind_Ok_inv in H as (u & _ & H).
    now apply (Hpc _ _ _ _ Hd Hc H).
  - intros r H. unfold first_static in H. apply bind_Ok_inv in H as (u & _ & H).
    apply bind_Ok_inv in H as (u' & _ & H).
    now apply (Hpc _ _ _ _ Hd Hc H).
  - intros r H. unfold last in H. apply bind_Ok_inv in H as (u & Hu & H).
    apply Expects_Ok_inv in Hu. apply (Hpc _ _ _ r) in H; try assumption.
    destruct (count =? 0); [assumption|]. apply Hadd.
    rewrite index_sub_id by (pose proof PTRDIFF_MIN_MAX; lia). lia.
  - intros r H. unfold last_static in H. apply bind_Ok_inv in H as (u0 & _ & H).
    apply bind_Ok_inv in H as (u & Hu & H).
    apply Expects_Ok_inv in Hu. apply (Hpc _ _ _ r) in H; try assumption.
    destruct (count =? 0); [assumption|]. apply Hadd.
    rewrite index_sub_id by (pose proof PTRDIFF_MIN_MAX; lia). lia.
  - intros r H. unfold subspan in H. apply bind_Ok_inv in H as (u & Hu & H).
    apply Expects_Ok_inv in Hu. apply (Hpc _ _ _ r) in H; try assumption.
    + apply Hadd. lia.
    + destruct (Hcnt offset count); [assumption | lia].
  - intros r H. unfold subspan_static in H.
    apply bind_Ok_inv in H as (u0 & _ & H).
    apply bind_Ok_inv in H as (u & Hu & H).
    apply Expects_Ok_inv in Hu. apply (Hpc _ _ _ r) in H; try assumption.
    + apply Hadd. lia.
    + destruct (Hcnt offset count); [assumption | lia].
Qed.

Lemma X18_subviews_witness :
  exists r, subspan example_span 1 3 = Ok r /\ span_invariant r.
Proof.
  destruct (X18_subviews_keep_invariants t_int dynamic_extent example_span 1 3
              example_span_invariant) as (_ & _ & _ & _ & Hsub & _).
  - change (3 <= 2 ^ 63 - 1). lia.
  - eexists. split; [reflexivity|]. apply Hsub. reflexivity.
Defined.

(** ** The compatibility rule beyond rule 3 *)

(** The five [int] of the example buffer seen as [const int]. *)
Definition example_const_span : span t_const_int dynamic_extent :=
  {| storage_ := {| extent_base := {| size_ := 5 |} : extent_type dynamic_extent;
                    data_ := 4096 |} |}.

Definition t_float : cpp_type := Fundamental false false ty_float.

(** A view of five [float]. *)
Definition example_float_span : span t_float dynamic_extent :=
  {| storage_ := {| extent_base := {| size_ := 5 |} : extent_type dynamic_extent;
                    data_ := 4096 |} |}.

Lemma is_integral_remove_cv (t : cpp_type) :
  is_integral (remove_cv_t t) = is_integral t.
Proof. destruct t as [c v f|c v p|c v n]; reflexivity. Qed.

Lemma remove_cv_not_const (t : cpp_type) : is_const (remove_cv_t t) = false.
Proof. destruct t; reflexivity. Qed.

Lemma const_differs_from_remove_cv (t : cpp_type) :
  is_const t = true -> remove_cv_t t <> t.
Proof. destruct t; simpl; intros -> H; discriminate. Qed.

Lemma const_cast_away (t : cpp_type) :
  is_const t = true -> casts_away_constness t (remove_cv_t t) = true.
Proof.
  intros Hc. unfold casts_away_constness.
  destruct t as [c v f|c v p|c v n]; simpl in *; subst c; reflexivity.
Qed.

Lemma cast_to_char_kept (From To : cpp_type) :
  To = t_char \/ To = t_const_char ->
  is_volatile From = false -> (is_const From = true -> is_const To = true) ->
  casts_away_constness From To = false.
Proof.
  intros HTo Hv Hc. unfold casts_away_constness.
  destruct From as [c v f|c v p|c v n]; simpl in *; subst v;
    destruct HTo as [->| ->]; simpl in *;
    destruct c; simpl; try reflexivity; specialize (Hc eq_refl); discriminate.
Qed.

Lemma volatile_cast_away (From To : cpp_type) :
  is_volatile From = true -> is_volatile To = false ->
  casts_away_constness From To = true.
Proof.
  intros Hv Hv'. unfold casts_away_constness.
  destruct From as [c v f|c v p|c v n]; destruct To as [c' v' f'|c' v' p'|c' v' n'];
    simpl in *; subst v v'; simpl; rewrite ?andb_false_r; reflexivity.
Qed.

(** X13: no conversion drops a qualifier of the element type: wherever
    the converting constructor compiles, the target is const if the source
    is and volatile if the source is.  The integral rule of the trait does
    not see const on the source and allows a const integral type (other
    than [const char]) to convert to the same type without const, but the
    constructor's [reinterpret_cast] casts away const there and the
    conversion does not compile; into [char] the specialisation already
    rejects every const source. *)
Theorem X13_conversions_keep_qualifiers {impl : Implementation}
    (From To : cpp_type) (E' : index_type) (other : span From E') :
  (forall E, span_converting To E other <> IllFormed ->
     (is_const From = true -> is_const To = true) /\
     (is_volatile From = true -> is_volatile To = true)) /\
  (is_const From = true -> is_integral From = true ->
   remove_cv_t From <> t_char ->
   sizeof From = sizeof (remove_cv_t From) ->
   alignof From = alignof (remove_cv_t From) ->
   is_convertible From (remove_cv_t From) = true ->
     details.is_allowed_element_type_conversion From (remove_cv_t From) = true /\
     forall E, span_converting (remove_cv_t From) E other = IllFormed) /\
  (is_const From = true ->
     details.is_allowed_element_type_conversion From t_char = false /\
     forall E, span_converting t_char E other = IllFormed).
Proof.
  split; [|split].
  - intros E H. apply span_converting_kept in H.
    now apply cast_keeps_qualifiers.
  - intros Hc Hi Hchar Hs Ha Hconv. split.
    + unfold details.is_allowed_element_type_conversion.
      apply is_same_false_iff in Hchar. rewrite Hchar.
      assert (is_same (remove_cv_t From) t_const_char = false) as ->.
      { apply is_same_false_iff. intros H.
        pose proof (remove_cv_not_const From) as Hn. rewrite H in Hn.
        discriminate. }
      unfold details.is_allowed_integral_conversion.
      rewrite is_integral_remove_cv, Hi, <- Hs, <- Ha, !Z.eqb_refl, Hconv.
      apply orb_true_r.
    + intros E. apply span_converting_cast_ill_formed.
      now apply const_cast_away.
  - intros Hc.
    assert (details.is_allowed_element_type_conversion From t_char = false) as Hal.
    { unfold details.is_allowed_element_type_conversion.
      rewrite is_same_refl, Hc. reflexivity. }
    split; [assumption|].
    intros E. unfold span_converting. rewrite Hal, andb_false_r. reflexivity.
Qed.

Lemma X13_conversions_keep_qualifiers_witness :
  details.is_allowed_element_type_conversion t_const_int t_int = true /\
  span_converting t_int dynamic_extent example_const_span = IllFormed /\
  span_converting t_char dynamic_extent example_const_span = IllFormed.
Proof.
  destruct (X13_conversions_keep_qualifiers t_const_int t_int dynamic_extent
              example_const_span) as (_ & Hdrop & Hchar).
  destruct Hdrop as (Hal & Hill);
    [reflexivity | reflexivity | discriminate
    | reflexivity | reflexivity | reflexivity |].
  split; [exact Hal|]. split; [apply (Hill dynamic_extent)|].
  apply (proj2 (Hchar eq_refl)).
Defined.

(** X14: a view of a non-volatile, non-const element type other than
    [char] converts to a view of [char], and a view of a non-volatile
    element type other than [const char] to a view of [const char]; from a
    volatile element type neither compiles.  The result keeps [data()] and
    the element count, not the byte count: with [sizeof(char) = 1] its
    [size_bytes()] is the source's [size()], which for a wider element type
    is less than the bytes the source covers. *)
Theorem X14_char_views_keep_the_count {impl : Implementation}
    (From : cpp_type) (E' : index_type) (other : span From E') :
  span_invariant other -> sizeof t_char = 1 -> sizeof t_const_char = 1 ->
  (is_volatile From = false -> is_const From = false -> From <> t_char ->
     exists d, span_converting t_char dynamic_extent other = Ok d /\
       data d = data other /\ size d = size other /\
       size_bytes d = size other /\
       (1 < sizeof From -> 0 < size other ->
          size_bytes d < size other * sizeof From)) /\
  (is_volatile From = false -> From <> t_const_char ->
     exists d, span_converting t_const_char dynamic_extent other = Ok d /\
       data d = data other /\ size d = size other /\
       size_bytes d = size other /\
       (1 < sizeof From -> 0 < size other ->
          size_bytes d < size other * sizeof From)) /\
  (is_volatile From = true ->
     forall E, span_converting t_char E other = IllFormed /\
               span_converting t_const_char E other = IllFormed).
Proof.
  intros (Hsz & _) Hchar Hcchar.
  pose proof PTRDIFF_MIN_MAX as Hmin.
  assert (forall To, sizeof To = 1 -> To <> From ->
            details.is_allowed_element_type_conversion From To = true ->
            casts_away_constness From To = false ->
            exists d, span_converting To dynamic_extent other = Ok d /\
              data d = data other /\ size d = size other /\
              size_bytes d = size other /\
              (1 < sizeof From -> 0 < size other ->
                 size_bytes d < size other * sizeof From)) as Hgen.
  { intros To Hone Hne Hal Hcast.
    destruct (span_converting_succeeds To dynamic_extent other Hne Hal Hcast)
      as (d & Hd & Hdd & Hds); [lia | auto |].
    exists d. split; [assumption|]. split; [assumption|]. split; [assumption|].
    assert (size_bytes d = size other) as Hb.
    { unfold size_bytes. rewrite Hds, Hone, Z.mul_1_r. apply to_index_id. lia. }
    split; [assumption|]. intros Hw Hpos. rewrite Hb. nia. }
  split; [|split].
  - intros Hv Hc Hne. apply Hgen; [assumption | congruence | |].
    + unfold details.is_allowed_element_type_conversion.
      rewrite is_same_refl, Hc. reflexivity.
    + apply cast_to_char_kept; [auto | assumption |].
      intros H. rewrite Hc in H. discriminate.
  - intros Hv Hne. apply Hgen; [assumption | congruence | |].
    + unfold details.is_allowed_element_type_conversion.
      replace (is_same t_const_char t_char) with false by reflexivity.
      rewrite is_same_refl. reflexivity.
    + apply cast_to_char_kept; [auto | assumption | reflexivity].
  - intros Hv E.
    split; apply span_converting_cast_ill_formed; now apply volatile_cast_away.
Qed.

Lemma example_volatile_span_invariant : span_invariant example_volatile_span.
Proof.
  unfold span_invariant. change (size example_volatile_span) with 5.
  change (data example_volatile_span) with 4096.
  change PTRDIFF_MAX with (2 ^ 63 - 1). unfold nullptr. lia.
Defined.

Lemma X14_char_views_witness :
  (exists d, span_converting t_char dynamic_extent example_span = Ok d /\
     size d = 5 /\ size_bytes d = 5 /\ size_bytes example_span = 20) /\
  span_converting t_const_char dynamic_extent example_volatile_span = IllFormed.
Proof.
  split.
  - destruct (X14_char_views_keep_the_count t_int dynamic_extent example_span
                example_span_invariant eq_refl eq_refl) as (Hchar & _).
    destruct Hchar as (d & Hd & _ & Hs & Hb & _);
      [reflexivity | reflexivity | discriminate |].
    exists d. split; [assumption|]. split; [exact Hs|]. split; [exact Hb|].
    reflexivity.
  - destruct (X14_char_views_keep_the_count t_volatile_int dynamic_extent
                example_volatile_span example_volatile_span_invariant
                eq_refl eq_refl)
      as (_ & _ & Hvol).
    apply (Hvol eq_refl dynamic_extent).
Defined.

(** X15: for an element type that is neither integral nor a pointer, and
    a target other than [char] and [const char], the rule allows exactly
    adding cv-qualifiers to the unqualified source type.  Any other target
    (an unrelated type, or the type with const dropped) leaves no
    converting constructor. *)
Theorem X15_only_qualification_is_added {impl : Implementation}
    (From To : cpp_type) :
  is_integral From = false -> is_pointer From = false ->
  To <> t_char -> To <> t_const_char ->
  (details.is_allowed_element_type_conversion From To = true <->
     From = remove_cv_t To) /\
  (From <> remove_cv_t To ->
     forall E E' (other : span From E'), span_converting To E other = IllFormed).
Proof.
  intros Hi Hp Hchar Hcchar.
  assert (details.is_allowed_element_type_conversion From To
          = is_same From (remove_cv_t To)) as Heq.
  { unfold details.is_allowed_element_type_conversion,
      details.is_allowed_pointer_conversion,
      details.is_allowed_integral_conversion.
    apply is_same_false_iff in Hchar. apply is_same_false_iff in Hcchar.
    rewrite Hchar, Hcchar, Hi, Hp. simpl. now rewrite !orb_false_r. }
  split.
  - rewrite Heq. apply is_same_true_iff.
  - intros Hne E E' other. unfold span_converting.
    apply is_same_false_iff in Hne. rewrite Heq, Hne, andb_false_r. reflexivity.
Qed.

Lemma X15_only_qualification_witness :
  span_converting t_int dynamic_extent example_float_span = IllFormed.
Proof.
  assert (t_int <> t_char) as Hchar by discriminate.
  assert (t_int <> t_const_char) as Hcchar by discriminate.
  apply (proj2 (X15_only_qualification_is_added t_float t_int
                  eq_refl eq_refl Hchar Hcchar)).
  discriminate.
Defined.

(** ** Observers *)

(** X19: for a view with the invariants whose byte count is an
    [index_type] value, [size_bytes()] and [length_bytes()] are
    [size() * sizeof(element_type)], the distance in bytes from [data()] to
    the end of the range; the view is [empty()] exactly when that is 0;
    and no sub-view has more bytes. *)
Theorem X19_size_bytes {impl : Implementation}
    (T : cpp_type) (E : index_type) (s : span T E) :
  span_invariant s -> size s * sizeof T <= PTRDIFF_MAX ->
  size_bytes s = size s * sizeof T /\
  length_bytes s = size s * sizeof T /\
  length s = size s /\
  (empty s = true <-> size_bytes s = 0) /\
  ptr_add T (data s) (size s) = data s + size_bytes s /\
  (forall offset count r,
     subspan_precondition s offset count ->
     subspan s offset count = Ok r -> size_bytes r <= size_bytes s).
Proof.
  intros Hinv Hfit. pose proof Hinv as (Hsz & _).
  pose proof PTRDIFF_MIN_MAX as Hmin. pose proof (sizeof_pos T) as Hpos.
  assert (size_bytes s = size s * sizeof T) as Hb.
  { unfold size_bytes. apply to_index_id. nia. }
  split; [assumption|]. split; [exact Hb|]. split; [reflexivity|].
  split; [|split].
  - unfold empty. rewrite Hb. split; intros H.
    + apply Z.eqb_eq in H. rewrite H. reflexivity.
    + apply Z.eqb_eq. nia.
  - rewrite Hb. reflexivity.
  - intros offset count r Hpre Hr.
    destruct (subspan_succeeds s offset count Hinv Hpre) as (r' & Hr' & _ & Hs).
    assert (r' = r) as -> by congruence.
    assert (0 <= size r <= size s) as Hle.
    { destruct Hpre as (Ho & Hc). rewrite Hs.
      destruct (Z.eqb_spec count dynamic_extent); lia. }
    rewrite Hb. unfold size_bytes. rewrite to_index_id by nia. nia.
Qed.

Lemma X19_size_bytes_witness :
  size_bytes example_span = 20 /\ (empty example_span = true <-> 20 = 0).
Proof.
  destruct (X19_size_bytes t_int dynamic_extent example_span
              example_span_invariant) as (Hb & _ & _ & He & _).
  - change (5 * 4 <= 2 ^ 63 - 1). lia.
  - split; [exact Hb|]. rewrite Hb in He. exact He.
Defined.

(** X20: between two pointer element types the rule allows exactly the
    pairs where the source is the target without its cv-qualifiers, or
    converts to the target implicitly.  The constructor then casts between
    pointers to these element types, one level further out than the rule
    asked about: an allowed conversion to a different type yields a view
    with the [data()] and [size()] of the source where that cast keeps the
    qualifiers, and does not compile where it casts them away, as from
    [int*] to [const int*]; a pair the rule does not allow leaves no
    converting constructor. *)
Theorem X20_pointer_element_types {impl : Implementation}
    (From To : cpp_type) (E' : index_type) (other : span From E') :
  is_pointer From = true -> is_pointer To = true ->
  (details.is_allowed_element_type_conversion From To = true <->
     From = remove_cv_t To \/ is_convertible From To = true) /\
  (To <> From -> is_convertible From To = true ->
   casts_away_constness From To = false -> 0 <= size other ->
     exists d, span_converting To dynamic_extent other = Ok d /\
       data d = data other /\ size d = size other) /\
  (casts_away_constness From To = true ->
     forall E, span_converting To E other = IllFormed) /\
  (From <> remove_cv_t To -> is_convertible From To = false ->
     forall E, span_converting To E other = IllFormed).
Proof.
  intros Hf Ht.
  assert (details.is_allowed_element_type_conversion From To
          = is_same From (remove_cv_t To) || is_convertible From To) as Heq.
  { unfold details.is_allowed_element_type_conversion,
      details.is_allowed_pointer_conversion,
      details.is_allowed_integral_conversion.
    assert (is_same To t_char = false) as ->
      by (apply is_same_false_iff; intros ->; discriminate).
    assert (is_same To t_const_char = false) as ->
      by (apply is_same_false_iff; intros ->; discriminate).
    assert (is_integral From = false) as ->
      by (destruct From; try discriminate; reflexivity).
    rewrite Hf, Ht. simpl. now rewrite orb_false_r. }
  split; [|split; [|split]].
  - rewrite Heq, orb_true_iff, is_same_true_iff. reflexivity.
  - intros Hne Hconv Hcast Hsz. apply span_converting_succeeds; auto.
    rewrite Heq, Hconv. apply orb_true_r.
  - intros Hcast E. now apply span_converting_cast_ill_formed.
  - intros Hne Hconv E. unfold span_converting.
    apply is_same_false_iff in Hne. rewrite Heq, Hne, Hconv, andb_false_r.
    reflexivity.
Qed.

(** The element types [int*], [const int*] and [const int* const], and
    five pointers at address 4096. *)
Definition t_int_ptr : cpp_type := Pointer false false t_int.
Definition t_const_int_ptr : cpp_type := Pointer false false t_const_int.
Definition t_const_int_ptr_const : cpp_type := Pointer true false t_const_int.

Definition example_ptr_span : span t_int_ptr dynamic_extent :=
  {| storage_ := {| extent_base := {| size_ := 5 |} : extent_type dynamic_extent;
                    data_ := 4096 |} |}.

Definition example_const_ptr_span : span t_const_int_ptr dynamic_extent :=
  {| storage_ := {| extent_base := {| size_ := 5 |} : extent_type dynamic_extent;
                    data_ := 4096 |} |}.

Lemma X20_pointer_element_types_witness :
  (exists d, span_converting t_const_int_ptr_const dynamic_extent example_ptr_span
             = Ok d /\ data d = 4096 /\ size d = 5) /\
  (details.is_allowed_element_type_conversion t_int_ptr t_const_int_ptr = true /\
   span_converting t_const_int_ptr dynamic_extent example_ptr_span = IllFormed) /\
  span_converting t_int_ptr dynamic_extent example_const_ptr_span = IllFormed.
Proof.
  split; [|split].
  - destruct (X20_pointer_element_types t_int_ptr t_const_int_ptr_const
                dynamic_extent example_ptr_span eq_refl eq_refl) as (_ & Hok & _).
    apply Hok.
    + discriminate.
    + reflexivity.
    + reflexivity.
    + change (0 <= 5). lia.
  - destruct (X20_pointer_element_types t_int_ptr t_const_int_ptr
                dynamic_extent example_ptr_span eq_refl eq_refl)
      as (Hal & _ & Hcast & _).
    split.
    + apply Hal. right. reflexivity.
    + apply Hcast. reflexivity.
  - destruct (X20_pointer_element_types t_const_int_ptr t_int_ptr dynamic_extent
                example_const_ptr_span eq_refl eq_refl) as (_ & _ & _ & Hrej).
    apply Hrej.
    + discriminate.
    + reflexivity.
Defined.
